(** * skill-weather: the unit resolver, dialog selector, time/day normaliser,
    wind model and provider lookup, embedded from the Python sources.

    Python values are modelled as follows.
    - [str] is [string]; only the ASCII behaviour of [lower], [capitalize],
      [title], [split] and [join] is modelled.
    - [dict] with string keys is [gmap string _]; [d.get(k)] is [d !! k].
    - Python [int] is [Z]; the numbers of a wind payload are rationals [Q]
      (every Python [int] and finite [float] is one, and comparisons between
      them are exact).
    - [None]-able values are [option].
    - Side effects (speaking a dialog, emitting a bus message, logging) are
      recorded in an explicit trace. *)

From Stdlib Require Import ZArith QArith Qround Ascii String List Lia Bool.
From stdpp Require Import gmap strings list.

Local Open Scope Z_scope.

(** ** Python string helpers (ASCII) *)

Module Py.

Definition is_upper (c : ascii) : bool :=
  let n := nat_of_ascii c in (Nat.leb 65 n && Nat.leb n 90)%bool.

Definition is_lower (c : ascii) : bool :=
  let n := nat_of_ascii c in (Nat.leb 97 n && Nat.leb n 122)%bool.

Definition is_alpha (c : ascii) : bool := (is_upper c || is_lower c)%bool.

Definition lower_char (c : ascii) : ascii :=
  if is_upper c then ascii_of_nat (nat_of_ascii c + 32) else c.

Definition upper_char (c : ascii) : ascii :=
  if is_lower c then ascii_of_nat (nat_of_ascii c - 32) else c.

(** [s.lower()] *)
Fixpoint lower (s : string) : string :=
  match s with
  | EmptyString => EmptyString
  | String c s' => String (lower_char c) (lower s')
  end.

(** [s.capitalize()]: first character upper-cased, the rest lower-cased. *)
Definition capitalize (s : string) : string :=
  match s with
  | EmptyString => EmptyString
  | String c s' => String (upper_char c) (lower s')
  end.

(** [s.title()]: a cased character is upper-cased when the previous
    character is uncased, lower-cased otherwise. *)
Fixpoint title_go (prev_cased : bool) (s : string) : string :=
  match s with
  | EmptyString => EmptyString
  | String c s' =>
      String (if prev_cased then lower_char c else upper_char c)
             (title_go (is_alpha c) s')
  end.
Definition title (s : string) : string := title_go false s.

(** [c.isspace()] on ASCII: TAB, LF, VT, FF, CR, FS, GS, RS, US, SPACE. *)
Definition isspace (c : ascii) : bool :=
  let n := nat_of_ascii c in
  ((Nat.leb 9 n && Nat.leb n 13) || (Nat.leb 28 n && Nat.leb n 32))%bool.

Definition flush (w : string) : list string :=
  match w with EmptyString => [] | _ => [w] end.

(** [s.split()]: maximal runs of non-whitespace characters; [w] is the
    word being read. *)
Fixpoint split_go (w : string) (s : string) : list string :=
  match s with
  | EmptyString => flush w
  | String c s' =>
      if isspace c then flush w ++ split_go EmptyString s'
      else split_go (w +:+ String c EmptyString) s'
  end.
Definition split (s : string) : list string := split_go EmptyString s.

Fixpoint has_space (s : string) : bool :=
  match s with
  | EmptyString => false
  | String c s' => (isspace c || has_space s')%bool
  end.

(** What [split] produces: non-empty strings without whitespace. *)
Definition is_word (w : string) : bool :=
  match w with
  | EmptyString => false
  | _ => negb (has_space w)
  end.

(** [sep.join(l)] *)
Fixpoint join (sep : string) (l : list string) : string :=
  match l with
  | [] => EmptyString
  | [x] => x
  | x :: rest => x +:+ sep +:+ join sep rest
  end.

(** [l[:-1]] *)
Definition but_last {A} (l : list A) : list A := removelast l.

(** [s.split(',')[0]]: the text before the first comma. *)
Fixpoint before_comma (s : string) : string :=
  match s with
  | EmptyString => EmptyString
  | String c s' =>
      if Ascii.eqb c ","%char then EmptyString else String c (before_comma s')
  end.

Fixpoint has_comma (s : string) : bool :=
  match s with
  | EmptyString => false
  | String c s' => (Ascii.eqb c ","%char || has_comma s')%bool
  end.

(** [round(x)] on a number: to the nearest integer, ties to even. *)
Definition round (x : Q) : Z :=
  let f := Qfloor x in
  let r := (x - inject_Z f)%Q in
  match (r ?= 1 # 2)%Q with
  | Lt => f
  | Gt => f + 1
  | Eq => if Z.even f then f else f + 1
  end.

(** A [datetime]: the proleptic ordinal of its [date()] and the [hour] of
    its [time()]. *)
Record datetime := { date : Z; hour : Z }.

End Py.

(** ** Period of the day: [util.to_time_period] and
    [WeatherSkill.__to_time_period] *)

Module TimePeriod.

Definition LOG_MSG : string := "Unable to parse time as a period of day".

(** The assignments to [period] in source order; the log records the
    [LOG.error] call of the [period is None] branch. *)
Definition to_time_period (when : Py.datetime) : option string * list string :=
  let hour := Py.hour when in
  let period : option string := None in
  let period := if (1 <=? hour) && (hour <? 5)
                then Some "early morning" else period in
  let period := if (5 <=? hour) && (hour <? 12)
                then Some "morning" else period in
  let period := if (12 <=? hour) && (hour <? 17)
                then Some "afternoon" else period in
  let period := if (17 <=? hour) && (hour <? 20)
                then Some "evening" else period in
  let period := if (20 <=? hour) || (hour <? 1)
                then Some "overnight" else period in
  match period with
  | None => (period, [LOG_MSG])
  | Some _ => (period, [])
  end.

(** The method of the skill class has the same body; its error goes to
    [self.log]. *)
Definition __to_time_period (when : Py.datetime) : option string * list string :=
  let hour := Py.hour when in
  let period : option string := None in
  let period := if (1 <=? hour) && (hour <? 5)
                then Some "early morning" else period in
  let period := if (5 <=? hour) && (hour <? 12)
                then Some "morning" else period in
  let period := if (12 <=? hour) && (hour <? 17)
                then Some "afternoon" else period in
  let period := if (17 <=? hour) && (hour <? 20)
                then Some "evening" else period in
  let period := if (20 <=? hour) || (hour <? 1)
                then Some "overnight" else period in
  match period with
  | None => (period, [LOG_MSG])
  | Some _ => (period, [])
  end.

(** The five buckets in the spec's words (inclusive hour ranges), to compare
    with the two functions above. *)
Definition spec_bucket (hour : Z) : string :=
  if (1 <=? hour) && (hour <=? 4) then "early morning"
  else if (5 <=? hour) && (hour <=? 11) then "morning"
  else if (12 <=? hour) && (hour <=? 16) then "afternoon"
  else if (17 <=? hour) && (hour <=? 19) then "evening"
  else "overnight".

End TimePeriod.

(** ** Runs of consecutive indices: [WeatherSkill.__get_seqs_from_list] *)

Module Seqs.

Record loop_state := {
  current_seq : list Z;
  seq_nums : list (list Z);
  seq_active : bool
}.

Definition init : loop_state :=
  {| current_seq := []; seq_nums := []; seq_active := false |}.

(** [nums[idx+1] == day + 1], guarded by [idx+1 < len(nums)]. *)
Definition next_is_successor (nums : list Z) (idx : nat) (day : Z) : bool :=
  bool_decide (idx + 1 < length nums)%nat &&
  match nums !! (idx + 1)%nat with
  | Some n => n =? day + 1
  | None => false
  end.

(** One iteration of [for idx, day in enumerate(nums)]. *)
Definition body (nums : list Z) (st : loop_state) (it : nat * Z) : loop_state :=
  let '(idx, day) := it in
  if next_is_successor nums idx day then
    {| current_seq := current_seq st ++ [day];
       seq_nums := seq_nums st;
       seq_active := true |}
  else if seq_active st then
    {| current_seq := [];
       seq_nums := seq_nums st ++ [current_seq st ++ [day]];
       seq_active := false |}
  else st.

Definition enumerate (nums : list Z) : list (nat * Z) := imap pair nums.

Definition __get_seqs_from_list (nums : list Z) : list (list Z) :=
  seq_nums (fold_left (body nums) (enumerate nums) init).

End Seqs.

(** ** Units: [source/weather_config.py] *)

Module Config.

Definition FAHRENHEIT : string := "fahrenheit".
Definition CELSIUS : string := "celsius".
Definition METRIC : string := "metric".
Definition METERS_PER_SECOND : string := "meters per second".
Definition MILES_PER_HOUR : string := "miles per hour".

(** Outcome of code that may raise [KeyError]. *)
Inductive result (A : Type) : Type :=
| Ok (a : A)
| KeyError (key : string).
Arguments Ok {A} a.
Arguments KeyError {A} key.

(** [WeatherConfig]: the string-valued entries of the core configuration,
    the skill settings, the location names and the two cached units. *)
Record WeatherConfig := {
  core_config : gmap string string;
  settings : gmap string string;
  city : string;
  state : string;
  country : string;
  _temperature_unit : option string;
  _speed_unit : option string
}.

Definition __init__ (core settings : gmap string string) (city state country : string)
  : WeatherConfig :=
  {| core_config := core; settings := settings;
     city := city; state := state; country := country;
     _temperature_unit := None; _speed_unit := None |}.

Definition set_temperature_unit (u : option string) (c : WeatherConfig) :=
  {| core_config := core_config c; settings := settings c;
     city := city c; state := state c; country := country c;
     _temperature_unit := u; _speed_unit := _speed_unit c |}.

Definition set_speed_unit (u : option string) (c : WeatherConfig) :=
  {| core_config := core_config c; settings := settings c;
     city := city c; state := state c; country := country c;
     _temperature_unit := _temperature_unit c; _speed_unit := u |}.

(** Property [speed_unit]: reads [core_config.get('system_unit')]. *)
Definition speed_unit (c : WeatherConfig) : string * WeatherConfig :=
  match _speed_unit c with
  | Some u => (u, c)
  | None =>
      let system_unit := core_config c !! "system_unit" in
      let u := if decide (system_unit = Some METRIC)
               then METERS_PER_SECOND else MILES_PER_HOUR in
      (u, set_speed_unit (Some u) c)
  end.

(** Property [temperature_unit]: reads [settings.get("units")] and
    [core_config['system_unit']]; a setting that is neither unit leaves the
    cache (and the result) [None]. *)
Definition temperature_unit (c : WeatherConfig)
  : result (option string) * WeatherConfig :=
  match _temperature_unit c with
  | Some u => (Ok (Some u), c)
  | None =>
      let unit_from_settings := settings c !! "units" in
      match core_config c !! "system_unit" with
      | None => (KeyError "system_unit", c)
      | Some measurement_system =>
          let u :=
            match unit_from_settings with
            | None =>
                if decide (measurement_system = METRIC)
                then Some CELSIUS else Some FAHRENHEIT
            | Some s =>
                if decide (Py.lower s = FAHRENHEIT) then Some FAHRENHEIT
                else if decide (Py.lower s = CELSIUS) then Some CELSIUS
                else None
            end in
          (Ok u, set_temperature_unit u c)
      end
  end.

End Config.

(** ** Wind: [source/weather_report.py] *)

Module Wind.
Import Config.

Definition Qlt_bool (x y : Q) : bool := negb (Qle_bool y x).

Definition MILES_PER_HOUR_MULTIPLIER : Q := 2.23694.

Definition WIND_DIRECTION_CONVERSION : list (Q * string) :=
  [ (22.5%Q, "N"); (67.5%Q, "NE"); (112.5%Q, "E"); (157.5%Q, "SE");
    (202.5%Q, "S"); (247.5%Q, "SW"); (292.5%Q, "W"); (337.5%Q, "NW") ].

(** A [Wind] object: the provider's wind payload, the configured speed
    unit (whatever the caller passed, possibly [None]) and three caches. *)
Record Wind := {
  _wind : gmap string Q;
  speed_unit : option string;
  _speed : option Z;
  _strength : option string;
  _direction : option string
}.

(** [Wind(weather, speed_unit)] *)
Definition __init__ (payload : gmap string Q) (unit : option string) : Wind :=
  {| _wind := payload; speed_unit := unit;
     _speed := None; _strength := None; _direction := None |}.

Definition set_speed (v : option Z) (w : Wind) : Wind :=
  {| _wind := _wind w; speed_unit := speed_unit w;
     _speed := v; _strength := _strength w; _direction := _direction w |}.

Definition set_strength (v : option string) (w : Wind) : Wind :=
  {| _wind := _wind w; speed_unit := speed_unit w;
     _speed := _speed w; _strength := v; _direction := _direction w |}.

Definition set_direction (v : option string) (w : Wind) : Wind :=
  {| _wind := _wind w; speed_unit := speed_unit w;
     _speed := _speed w; _strength := _strength w; _direction := v |}.

(** Property [speed]: the raw speed, times 2.23694 for miles per hour,
    rounded; the payload itself is not written. *)
Definition speed (w : Wind) : result Z * Wind :=
  match _speed w with
  | Some v => (Ok v, w)
  | None =>
      match _wind w !! "speed" with
      | None => (KeyError "speed", w)
      | Some raw =>
          let s := if decide (speed_unit w = Some MILES_PER_HOUR)
                   then (raw * 2.23694)%Q else raw in
          let v := Py.round s in
          (Ok v, set_speed (Some v) w)
      end
  end.

(** The three-way comparison of [strength]. *)
Definition classify (raw : Q) : string :=
  if Qle_bool raw 2.2352 then "light"
  else if Qle_bool raw 6.7056 then "medium"
  else "hard".

(** Property [strength]. *)
Definition strength (w : Wind) : result string * Wind :=
  match _strength w with
  | Some s => (Ok s, w)
  | None =>
      match _wind w !! "speed" with
      | None => (KeyError "speed", w)
      | Some raw =>
          let s := classify raw in
          (Ok s, set_strength (Some s) w)
      end
  end.

(** The [for ... break] scan of the table; [cur] is [self._direction]
    before the loop. *)
Fixpoint scan (table : list (Q * string)) (degree : Q) (cur : option string)
  : option string :=
  match table with
  | [] => cur
  | (min_degree, direction) :: rest =>
      if Qlt_bool degree min_degree then Some direction
      else scan rest degree cur
  end.

(** Property [direction]. *)
Definition direction (w : Wind) : option string * Wind :=
  let degree := _wind w !! "deg" in
  match _direction w, degree with
  | None, Some degree =>
      let d := if Qle_bool 337.5 degree then Some "N"
               else scan WIND_DIRECTION_CONVERSION degree (_direction w) in
      (d, set_direction d w)
  | _, _ => (_direction w, w)
  end.

(** Reading the properties in any order. *)
Inductive access := ReadSpeed | ReadStrength | ReadDirection.

Definition read (a : access) (w : Wind) : Wind :=
  match a with
  | ReadSpeed => snd (speed w)
  | ReadStrength => snd (strength w)
  | ReadDirection => snd (direction w)
  end.

Definition reads (l : list access) (w : Wind) : Wind :=
  fold_left (fun w a => read a w) l w.

(** The direction a fresh object computes from a degree. *)
Definition compass (degree : Q) : option string :=
  if Qle_bool 337.5 degree then Some "N"
  else scan WIND_DIRECTION_CONVERSION degree None.

(** What every [Wind] object built from [payload] satisfies, whatever has
    been read from it. *)
Definition wind_inv (payload : gmap string Q) (unit : option string) (w : Wind) : Prop :=
  _wind w = payload /\
  speed_unit w = unit /\
  match payload !! "speed" with
  | Some raw => _strength w = None \/ _strength w = Some (classify raw)
  | None => _strength w = None
  end /\
  match payload !! "deg" with
  | Some degree => _direction w = None \/ _direction w = compass degree
  | None => _direction w = None
  end.

End Wind.

(** ** The report: [WeatherReport] of [source/weather_report.py] *)

Module Report.
Import Config.

(** The fields of [WeatherReport] that unit resolution and dialog
    selection read or write. *)
Record WeatherReport := {
  short_location : option string;
  long_location : option string;
  temperature_unit : option string;
  condition : option string;
  time : option string;
  day : option string
}.

(** [WeatherReport(weather_config)] *)
Definition __init__ (c : WeatherConfig) : result WeatherReport * WeatherConfig :=
  match Config.temperature_unit c with
  | (KeyError k, c') => (KeyError k, c')
  | (Ok unit, c') =>
      (Ok {| short_location := Some (city c);
             long_location :=
               Some (Py.join ", " [city c; state c; country c]);
             temperature_unit := unit;
             condition := None; time := None; day := None |}, c')
  end.

End Report.

(** ** The skill: [__init__.py] *)

Module Skill.
Import Config Report.

(** A bus message: its [data] dictionary. *)
Record Message := { data : gmap string string }.

(** What a handler does to the outside world. *)
Inductive effect :=
| Speak (dialog : string) (data : option (gmap string string))
| Emit (msg_type : string).

(** [APIErrors = (LocationNotFoundError, HTTPError)]; an [HTTPError]
    carries [e.response.status_code]. *)
Inductive api_exception :=
| LocationNotFoundError
| HTTPError (status_code : Z).

Section WithHost.
(** The host platform: vocabulary matching, the registered dialog
    templates, translation of a dialog name and date formatting. *)
Variable voc_match : option string -> string -> bool.
Variable templates : gset string.
Variable translate : string -> string.
Variable nice_date : Py.datetime -> Py.datetime -> string.

(** [_get_requested_unit]: the test reads [intent_unit], which is still
    [None], not [message_unit]. *)
Definition _get_requested_unit (message : Message) : option string :=
  let intent_unit : option string := None in
  let message_unit := data message !! "Unit" in
  match intent_unit with
  | Some _ =>
      if voc_match message_unit (Py.title FAHRENHEIT)
      then Some FAHRENHEIT else Some CELSIUS
  | None => intent_unit
  end.

(** [_get_requested_location] *)
Definition _get_requested_location (message : Message) : option string :=
  data message !! "Location".

(** [_initialize_report(message)] *)
Definition _initialize_report (c : WeatherConfig) (message : option Message)
  : result WeatherReport * WeatherConfig :=
  match Report.__init__ c with
  | (KeyError k, c') => (KeyError k, c')
  | (Ok report, c') =>
      match message with
      | None => (Ok report, c')
      | Some message =>
          let intent_location := _get_requested_location message in
          (Ok {| short_location := intent_location;
                 long_location := intent_location;
                 temperature_unit := _get_requested_unit message;
                 condition := condition report;
                 time := time report;
                 day := day report |}, c')
      end
  end.

(** The unit [__get_temperature] converts to: [unit or
    self.weather_config.temperature_unit]. *)
Definition effective_unit (c : WeatherConfig) (unit : option string)
  : result (option string) * WeatherConfig :=
  match unit with
  | Some u => if decide (u = "") then Config.temperature_unit c
              else (Ok (Some u), c)
  | None => Config.temperature_unit c
  end.

(** The first choice of [__select_condition_dialog], before prefixes. *)
Definition base_dialog (report : WeatherReport) (noun exp : string) : string :=
  let alternative_voc := Py.capitalize noun +:+ "Alternatives" in
  if voc_match (condition report) (Py.capitalize exp) then
    "affirmative.condition"
  else if bool_decide (time report <> None) then
    if voc_match (condition report) alternative_voc then "cond.alternative"
    else "no.cond.predicted"
  else if voc_match (condition report) alternative_voc then
    Py.lower exp +:+ ".alternative"
  else
    "no." +:+ Py.lower noun +:+ ".predicted".

(** [__select_condition_dialog(message, report, noun, exp=None)] *)
Definition __select_condition_dialog (message : Message)
    (report : option WeatherReport) (noun : string) (exp : option string)
  : string :=
  match report with
  | None => "do not know"
  | Some report =>
      let exp := match exp with None => noun | Some e => e end in
      let dialog := base_dialog report noun exp in
      let dialog := if bool_decide (data message !! "Location" = None)
                    then "local." +:+ dialog else dialog in
      let dialog := if bool_decide (day report <> None)
                    then "forecast." +:+ dialog else dialog in
      let dialog := if bool_decide (time report <> None) &&
                       bool_decide ("at.time." +:+ dialog ∈ templates)
                    then "at.time." +:+ dialog else dialog in
      dialog
  end.

(** [__to_day(when, preface)], with [now] the value of
    [datetime.now()]. *)
Definition __to_day (now when : Py.datetime) (preface : bool) : string :=
  let speakable_date := nice_date when now in
  let days_diff := Py.date when - Py.date now in
  let speakable_date :=
    if preface && ((-1 >? days_diff) || (days_diff >? 1))
    then translate "on.date" +:+ " " +:+ speakable_date
    else speakable_date in
  let speakable_date :=
    if days_diff <=? 6 then Py.before_comma speakable_date
    else speakable_date in
  speakable_date.

End WithHost.

(** [_report_no_data(data=None)] *)
Definition _report_no_data (data : option (gmap string string)) : list effect :=
  match data with
  | None => [Speak "cant.get.forecast" None]
  | Some d => [Speak "no.forecast" (Some d)]
  end.

(** [__api_error(e)] *)
Definition __api_error (e : api_exception) : list effect :=
  match e with
  | LocationNotFoundError => [Speak "location.not.found" None]
  | HTTPError status_code =>
      if status_code =? 401 then [Emit "mycroft.not.paired"]
      else _report_no_data None
  end.

(** The [try: ... except APIErrors as e: self.__api_error(e)] of the
    handlers: the effects of the body up to the exception, then those of
    [__api_error]. *)
Definition guarded (body : list effect * option api_exception) : list effect :=
  match body with
  | (trace, None) => trace
  | (trace, Some e) => trace ++ __api_error e
  end.

End Skill.

(** ** Provider lookup by name: [source/api.py] and [owmapi.py]
    (the two files have the same [weather_at_location] and
    [_daily_forecast_at_location]) *)

Module Api.
Import Skill.

(** What [self.request] does: it returns the response data or raises an
    [HTTPError] with a status code. *)
Inductive response (D : Type) : Type :=
| Resp (d : D)
| Fails (status_code : Z).
Arguments Resp {D} d.
Arguments Fails {D} status_code.

(** How a lookup ends. *)
Inductive outcome (R : Type) : Type :=
| Return (r : R)
| Raised (e : api_exception).
Arguments Return {R} r.
Arguments Raised {R} e.

(** [' '.join(name.split()[:-1])] *)
Definition shorten (name : string) : string :=
  Py.join " " (Py.but_last (Py.split name)).

Section WithProvider.
Context {Data Observation Forecast : Type}.
(** [self.observation.parse_JSON] and [self.to_forecast(_, 'daily')]. *)
Variable parse_JSON : Data -> Observation.
Variable to_forecast : Data -> option Forecast.
(** The provider behind [self.request]: the answer to the [n]-th request
    of a lookup for path [path], query name [q] and count [cnt]. *)
Variable request : nat -> string -> string -> option Z -> response Data.

(** [weather_at_location(name)]; [n] counts the retries made so far and
    the result carries their final number. [None] is an exhausted
    recursion budget. *)
Fixpoint weather_at_location (fuel n : nat) (name : string)
  : option (outcome (Observation * string) * nat) :=
  match fuel with
  | O => None
  | S fuel' =>
      if decide (name = "") then Some (Raised LocationNotFoundError, n)
      else
        match request n "/weather" name None with
        | Resp d => Some (Return (parse_JSON d, name), n)
        | Fails status_code =>
            if status_code =? 404
            then weather_at_location fuel' (S n) (shorten name)
            else Some (Raised (HTTPError status_code), n)
        end
  end.

(** The [while name != ''] loop of [_daily_forecast_at_location]; an
    [HTTPError] other than 404 is caught and the loop goes round again
    with [name] unchanged. *)
Fixpoint daily_loop (fuel n : nat) (orig_name name : string)
    (limit : option Z) (translations : gmap string string)
  : option (outcome (option Forecast) * gmap string string * nat) :=
  match fuel with
  | O => None
  | S fuel' =>
      if decide (name = "")
      then Some (Raised LocationNotFoundError, translations, n)
      else
        match request n "/forecast/daily" name limit with
        | Resp d =>
            Some (Return (to_forecast d),
                  <[orig_name := name]> translations, n)
        | Fails status_code =>
            if status_code =? 404
            then daily_loop fuel' (S n) orig_name (shorten name)
                            limit translations
            else daily_loop fuel' (S n) orig_name name limit translations
        end
  end.

(** [_daily_forecast_at_location(name, limit)] *)
Definition _daily_forecast_at_location (fuel : nat) (name : string)
    (limit : option Z) (translations : gmap string string)
  : option (outcome (option Forecast) * gmap string string * nat) :=
  let name := match translations !! name with
              | Some t => t
              | None => name
              end in
  let orig_name := name in
  daily_loop fuel 0 orig_name name limit translations.

End WithProvider.

(** The number of retries a lookup of [name] can need. *)
Definition retry_bound (name : string) : nat :=
  if decide (name = "") then 0%nat
  else Nat.max 1 (length (Py.split name)).

(** A provider that answers every request with a result or a 404. *)
Definition only_not_found {Data}
    (request : nat -> string -> string -> option Z -> response Data) : Prop :=
  forall n path q cnt status_code,
    request n path q cnt = Fails status_code -> status_code = 404.

End Api.

(** ** The run loop read along the list *)

Module SeqsLoop.
Import Seqs.

(** One iteration, given [nums[idx+1]] when it exists. *)
Definition step (next : option Z) (st : loop_state) (day : Z) : loop_state :=
  if match next with Some n => n =? day + 1 | None => false end then
    {| current_seq := current_seq st ++ [day];
       seq_nums := seq_nums st;
       seq_active := true |}
  else if seq_active st then
    {| current_seq := [];
       seq_nums := seq_nums st ++ [current_seq st ++ [day]];
       seq_active := false |}
  else st.

(** The loop over the rest of the list; proved equal to the indexed loop of
    [__get_seqs_from_list] in [get_seqs_loop]. *)
Fixpoint loop (st : loop_state) (l : list Z) : loop_state :=
  match l with
  | [] => st
  | day :: rest => loop (step (head rest) st day) rest
  end.

(** Each element is the successor of the one before. *)
Definition consecutive (run : list Z) : Prop :=
  forall (i : nat) a b, run !! i = Some a -> run !! S i = Some b -> b = a + 1.

(** The element after [a] in [l] is [a + 1], somewhere in [l]. *)
Definition has_step (a : Z) (l : list Z) : Prop :=
  exists i : nat, l !! i = Some a /\ l !! S i = Some (a + 1).

(** A finished run: two elements or more, each the successor of the one
    before. *)
Definition run_ok (run : list Z) : Prop :=
  (2 <= length run)%nat /\ consecutive run.

End SeqsLoop.

(** ** Language codes: [OWMApi.get_language] of [source/api.py] and of
    [owmapi.py] *)

Module Lang.

(** [s.split(sep)] for a one-character separator; [w] is the part being
    read. The result is never empty. *)
Fixpoint split_on_go (sep : ascii) (w s : string) : list string :=
  match s with
  | EmptyString => [w]
  | String c s' =>
      if Ascii.eqb c sep then w :: split_on_go sep EmptyString s'
      else split_on_go sep (w +:+ String c EmptyString) s'
  end.
Definition split_on (sep : ascii) (s : string) : list string :=
  split_on_go sep EmptyString s.

Definition lookup : gmap string string :=
  list_to_map [ ("sv", "se"); ("cs", "cz"); ("ko", "kr"); ("lv", "la");
                ("uk", "ua") ].

(** [owmsupported] of [source/api.py]. *)
Definition owmsupported : list string :=
  [ "ar"; "bg"; "ca"; "cz"; "da"; "de"; "el"; "en"; "fa"; "fi";
    "fr"; "gl"; "hr"; "hu"; "it"; "ja"; "kr"; "la"; "lt";
    "mk"; "nl"; "pl"; "pt"; "ro"; "ru"; "se"; "sk"; "sl";
    "es"; "tr"; "ua"; "vi" ].

(** [owmsupported] of [owmapi.py]: the same without "da". *)
Definition owmsupported_owmapi : list string :=
  [ "ar"; "bg"; "ca"; "cz"; "de"; "el"; "en"; "fa"; "fi";
    "fr"; "gl"; "hr"; "hu"; "it"; "ja"; "kr"; "la"; "lt";
    "mk"; "nl"; "pl"; "pt"; "ro"; "ru"; "se"; "sk"; "sl";
    "es"; "tr"; "ua"; "vi" ].

(** [lang[0]] and [lang[1]] of the split language; the split is never
    empty, and [lang[1]] is read only when there are two parts. *)
Definition part (i : nat) (lang : list string) : string :=
  match lang !! i with Some p => p | None => EmptyString end.

(** [get_language] of [source/api.py]: returns at the first match. *)
Definition get_language (lang : string) : string :=
  let owmlang := "en" in
  if decide (lang = "zh-zn" \/ lang = "zh_zn") then "zh_zn"
  else if decide (lang = "zh-tw" \/ lang = "zh_tw") then "zh_tw"
  else
    let lang := split_on "-"%char (Py.lower lang) in
    match lookup !! part 0 lang with
    | Some code => code
    | None =>
        if bool_decide (part 0 lang ∈ owmsupported) then part 0 lang
        else if (length lang =? 2)%nat
                && bool_decide (part 1 lang ∈ owmsupported)
        then part 1 lang
        else owmlang
    end.

(** [get_language] of [owmapi.py]: assigns [owmlang] twice, so a supported
    second part replaces a supported first part. *)
Definition get_language_owmapi (lang : string) : string :=
  let owmlang := "en" in
  if decide (lang = "zh-zn" \/ lang = "zh_zn") then "zh_zn"
  else if decide (lang = "zh-tw" \/ lang = "zh_tw") then "zh_tw"
  else
    let lang := split_on "-"%char (Py.lower lang) in
    match lookup !! part 0 lang with
    | Some code => code
    | None =>
        let owmlang :=
          if bool_decide (part 0 lang ∈ owmsupported_owmapi)
          then part 0 lang else owmlang in
        let owmlang :=
          if (length lang =? 2)%nat
          then if bool_decide (part 1 lang ∈ owmsupported_owmapi)
               then part 1 lang else owmlang
          else owmlang in
        owmlang
    end.

(** [set_OWM_language(lang)]: the new [(owmlang, encoding)]. *)
Definition set_OWM_language (lang : string) : string * string :=
  (lang, if decide (lang = "se") then "latin1" else "utf8").

End Lang.

(** ** The response cache: [OWMApi.request] *)

Module Cache.
Import Skill Api.

Definition MINUTES : Z := 60.

(** The text ['{"cod":"404"'] that marks a not-found answer delivered as a
    string. *)
Definition quote : string := String "034"%char EmptyString.
Definition NOT_FOUND_MARK : string :=
  "{" +:+ quote +:+ "cod" +:+ quote +:+ ":" +:+ quote +:+ "404" +:+ quote.

(** [sub in s] *)
Fixpoint contains (sub s : string) : bool :=
  String.prefix sub s ||
  match s with
  | EmptyString => false
  | String _ s' => contains sub s'
  end.

Section WithProvider.
(** A request is its path and query without the count ([what]) and the
    count [cnt] of the query, when it has one; the serialised request is
    taken as the cache key (the hash of the source is assumed free of
    collisions). *)
Context {K : Type} `{Countable K}.
(** The provider's answers, and [as_str] for the answers that are a [str]
    ([isinstance(resp, str)]). *)
Context {R : Type}.
Variable as_str : R -> option string.
(** [super().request]: the provider's answer or an [HTTPError]. *)
Variable fetch : K * option Z -> response R.

(** [isinstance(resp, str) and '{"cod":"404"' in resp] *)
Definition not_found (resp : R) : bool :=
  match as_str resp with
  | Some s => contains NOT_FOUND_MARK s
  | None => false
  end.

(** The [while] loop that looks for a cached answer to the same request
    with a larger count; [n] is the number of counts left below 16. *)
Fixpoint probe (n : nat) (what : K) (cnt : Z)
    (query_cache : gmap (K * option Z) (Q * R)) : option (Q * R) :=
  match n with
  | O => None
  | S n' =>
      let cnt := cnt + 1 in
      match query_cache !! (what, Some cnt) with
      | Some test_cache => Some test_cache
      | None => probe n' what cnt query_cache
      end
  end.

(** The branch that asks the provider: a text with the not-found mark is
    turned into an [HTTPError] 404; any other answer is stored under the
    request with the time [now]. The third component lists the requests
    sent to the provider. *)
Definition fetch_and_store (now : Q)
    (query_cache : gmap (K * option Z) (Q * R)) (data : K * option Z)
  : outcome R * gmap (K * option Z) (Q * R) * list (K * option Z) :=
  match fetch data with
  | Fails status_code => (Raised (HTTPError status_code), query_cache, [data])
  | Resp resp =>
      if not_found resp
      then (Raised (HTTPError 404), query_cache, [data])
      else (Return resp, <[data := (now, resp)]> query_cache, [data])
  end.

(** [request(data)] at monotonic time [now]. A missing entry stands for
    the default [(0, None)]. *)
Definition request (now : Q) (query_cache : gmap (K * option Z) (Q * R))
    (data : K * option Z)
  : outcome R * gmap (K * option Z) (Q * R) * list (K * option Z) :=
  let cache := query_cache !! data in
  let cache :=
    match snd data, cache with
    | Some cnt, None =>
        if decide (cnt = 0) then cache
        else probe (Z.to_nat (16 - cnt)) (fst data) cnt query_cache
    | _, _ => cache
    end in
  match cache with
  | Some (fetched, resp) =>
      if Wind.Qlt_bool (fetched + inject_Z (15 * MINUTES)) now
      then fetch_and_store now query_cache data
      else (Return resp, query_cache, [])
  | None => fetch_and_store now query_cache data
  end.

End WithProvider.

(** No cached answer carries the not-found mark. *)
Definition clean {K} `{Countable K} {R} (as_str : R -> option string)
    (query_cache : gmap (K * option Z) (Q * R)) : Prop :=
  forall key fetched resp,
    query_cache !! key = Some (fetched, resp) ->
    not_found as_str resp = false.

End Cache.

(** ** Lookups by place: [weather_at_place], [three_hours_forecast] and
    [daily_forecast] *)

Module Places.
Import Skill Api.

(** [if x] on a number. *)
Definition truthy (x : Q) : bool := negb (Qeq_bool x 0).

Section WithProvider.
Context {Data Observation Forecast : Type}.
Variable parse_JSON : Data -> Observation.
(** [self.to_forecast(data, interval)] *)
Variable to_forecast : Data -> string -> option Forecast.
(** The provider behind [self.request], for a query by name (as in
    [Api]) and for a query by coordinates. *)
Variable request : nat -> string -> string -> option Z -> response Data.
Variable request_at : string -> Q -> Q -> option Z -> response Data.

(** [weather_at_place(name, lat, lon)]: the outcome and
    [self.location_translations] afterwards. *)
Definition weather_at_place (fuel : nat) (name : string) (lat lon : Q)
    (translations : gmap string string)
  : option (outcome Observation * gmap string string) :=
  if truthy lat && truthy lon then
    match request_at "/weather" lat lon None with
    | Resp data => Some (Return (parse_JSON data), translations)
    | Fails status_code => Some (Raised (HTTPError status_code), translations)
    end
  else
    let name := match translations !! name with
                | Some t => t
                | None => name
                end in
    match weather_at_location parse_JSON request fuel 0 name with
    | None => None
    | Some (Raised e, _) => Some (Raised e, translations)
    | Some (Return (response, trans_name), _) =>
        Some (Return response, <[name := trans_name]> translations)
    end.

(** [three_hours_forecast(name, lat, lon)] *)
Definition three_hours_forecast (name : string) (lat lon : Q)
    (translations : gmap string string) : outcome (option Forecast) :=
  let data :=
    if truthy lat && truthy lon then request_at "/forecast" lat lon None
    else
      let name := match translations !! name with
                  | Some t => t
                  | None => name
                  end in
      request 0 "/forecast" name None in
  match data with
  | Resp data => Return (to_forecast data "3h")
  | Fails status_code => Raised (HTTPError status_code)
  end.


End WithProvider.

(** A provider whose answer depends on the request only, not on how many
    requests came before. *)
Definition stationary {Data}
    (request : nat -> string -> string -> option Z -> response Data) : Prop :=
  forall n path q cnt, request n path q cnt = request 0%nat path q cnt.

End Places.

(** ** The reported wind speed *)

Module WindSpeed.
Import Config Wind.

(** The number [speed] rounds: the raw speed, or 2.23694 times the raw
    speed when the unit is miles per hour. *)
Definition converted (unit : option string) (raw : Q) : Q :=
  if decide (unit = Some MILES_PER_HOUR) then (raw * 2.23694)%Q else raw.

(** What every [Wind] object keeps true of its cached speed. *)
Definition speed_inv (payload : gmap string Q) (unit : option string) (w : Wind)
  : Prop :=
  _wind w = payload /\
  speed_unit w = unit /\
  match payload !! "speed" with
  | Some raw =>
      _speed w = None \/ _speed w = Some (Py.round (converted unit raw))
  | None => _speed w = None /\ _strength w = None
  end.

End WindSpeed.

(** ** Temperatures of a report: [WeatherReport.get_temperature] *)

From Stdlib Require Import DecimalString DecimalZ.

Module Temperature.

(** [str(n)] for an [int]. *)
Definition str_int (n : Z) : string := NilEmpty.string_of_int (Z.to_int n).

(** [int(s)] for a text written by [str_int]. *)
Definition int_str (s : string) : option Z :=
  match NilEmpty.int_of_string s with
  | Some d => Some (Z.of_int d)
  | None => None
  end.

(** [get_temperature(weather, key)], given the dictionary that
    [weather.get_temperature(unit)] returned: the text and the warnings
    logged. *)
Definition get_temperature (temperatures : gmap string Q) (key : string)
  : string * list string :=
  let temperature := temperatures !! key in
  let temperature :=
    if bool_decide (temperature = None) && bool_decide (key = "min")
    then temperatures !! "temp_min"
    else if bool_decide (temperature = None) && bool_decide (key = "max")
    then temperatures !! "temp_max"
    else temperature in
  match temperature with
  | None => (EmptyString, ["No " +:+ key +:+ " temperature available"])
  | Some t => (str_int (Py.round t), [])
  end.

(** The temperature [get_temperature] reads for [key]. *)
Definition source_of (temperatures : gmap string Q) (key : string) : option Q :=
  match temperatures !! key with
  | Some t => Some t
  | None =>
      if decide (key = "min") then temperatures !! "temp_min"
      else if decide (key = "max") then temperatures !! "temp_max"
      else None
  end.

End Temperature.

(** ** The forecast for the display: [get_coming_days_forecast] *)

Module Display.

(** What the loop can raise. *)
Inductive error := KeyError (key : string) | IndexError.

(** [self.CODES]: OWM icon names to display codes. *)
Definition CODES : gmap string Z :=
  list_to_map
    [ ("01d", 0); ("01n", 0);
      ("02d", 1); ("02n", 1); ("03d", 1); ("03n", 1);
      ("04d", 2); ("04n", 2);
      ("09d", 3); ("09n", 3);
      ("10d", 4); ("10n", 4);
      ("11d", 5); ("11n", 5);
      ("13d", 6); ("13n", 6);
      ("50d", 7); ("50n", 7) ].

(** One OWM weather: its icon name, its temperatures in a unit and the
    weekday (Monday is 0) of its reference time. *)
Record weather := {
  get_weather_icon_name : string;
  get_temperature : string -> gmap string Q;
  weekday : nat
}.

(** One entry of the result. *)
Record day_forecast := {
  weathercode : Z;
  max : Z;
  min : Z;
  date : string
}.

Definition weekdays : list string :=
  [ "Mon"; "Tue"; "Wed"; "Thu"; "Fri"; "Sat"; "Sun" ].

(** The body of the loop for one weather. *)
Definition entry (unit : string) (w : weather) : error + day_forecast :=
  let result_temp := get_temperature w unit in
  match weekdays !! weekday w with
  | None => inl IndexError
  | Some result_temp_day =>
      match CODES !! get_weather_icon_name w with
      | None => inl (KeyError (get_weather_icon_name w))
      | Some code =>
          match result_temp !! "max" with
          | None => inl (KeyError "max")
          | Some tmax =>
              match result_temp !! "min" with
              | None => inl (KeyError "min")
              | Some tmin =>
                  inr {| weathercode := code; max := Py.round tmax;
                         min := Py.round tmin; date := result_temp_day |}
              end
          end
      end
  end.

(** The loop: the first error ends it. *)
Fixpoint entries (unit : string) (l : list weather)
  : error + list day_forecast :=
  match l with
  | [] => inr []
  | w :: rest =>
      match entry unit w with
      | inl e => inl e
      | inr d =>
          match entries unit rest with
          | inl e => inl e
          | inr ds => inr (d :: ds)
          end
      end
  end.

(** [get_coming_days_forecast(forecast, unit, days)]: [days] is given a
    default and not read again; the weathers are [list(...)[1:5]]. *)
Definition get_coming_days_forecast (forecast : list weather) (unit : string)
    (days : option Z) : error + list day_forecast :=
  let days := match days with
              | Some d => if decide (d = 0) then 4 else d
              | None => 4
              end in
  entries unit (take 4 (drop 1 forecast)).

End Display.

(** ** Condition handlers: [handle_isit_windy], [__report_condition],
    [__translate] and [handle_next_precipitation] *)

Module Conditions.
Import Config Wind Report Skill.

(** Windstrength limits in miles per hour and in m/s. *)
Definition WINDSTRENGTH_MPH : gmap string Z :=
  list_to_map [ ("hard", 20); ("medium", 11) ].
Definition WINDSTRENGTH_MPS : gmap string Z :=
  list_to_map [ ("hard", 9); ("medium", 5) ].

#[global] Instance datetime_eq_dec : EqDecision Py.datetime.
Proof. solve_decision. Defined.

(** One daily weather of a forecast: the date and time of its reference
    time and its rain and snow dictionaries. *)
Record day_weather := {
  reference_time : Py.datetime;
  get_rain : gmap string Q;
  get_snow : gmap string Q
}.

(** What a handler ends with: the effects, or a [KeyError]. *)
Definition handled : Type := result (list effect).

Section WithHost.
Variable templates : gset string.
Variable translate : string -> string.
Variable nice_date : Py.datetime -> Py.datetime -> string.

(** [__translate(condition, future)] *)
Definition __translate (condition : string) (future : bool) : string :=
  if future && bool_decide (condition +:+ ".future" ∈ templates)
  then translate (condition +:+ ".future")
  else if bool_decide (condition ∈ templates) then translate condition
  else condition.

(** [handle_isit_windy] once the report is populated: [report] holds the
    attributes of the report as they are handed to the dialog, [day] is
    [report.day] and [w] is [report.wind]. The limits are chosen and not
    used; the name of the configured speed unit is written to
    [report.wind_unit]. *)
Definition handle_isit_windy (c : WeatherConfig) (message : Message)
    (report : gmap string string) (day : option string) (w : Wind)
  : handled :=
  let '(limits, report) :=
    if decide (fst (Config.speed_unit c) = MILES_PER_HOUR)
    then (WINDSTRENGTH_MPH,
          <["wind_unit" := translate MILES_PER_HOUR]> report)
    else (WINDSTRENGTH_MPS,
          <["wind_unit" := translate METERS_PER_SECOND]> report) in
  let dialog : list string := [] in
  let dialog := if bool_decide (day <> None)
                then dialog ++ ["forecast"] else dialog in
  let dialog := if bool_decide (data message !! "Location" = None)
                then dialog ++ ["local"] else dialog in
  match fst (strength w) with
  | KeyError key => KeyError key
  | Ok s => Ok [Speak (Py.join "." (dialog ++ [s])) (Some report)]
  end.

(** [__report_condition(name, value, when, location)]; [today] is the
    extracted "today" and [now] the clock read by [__to_day]. *)
Definition __report_condition (now today : Py.datetime) (name value : string)
    (when : option Py.datetime) (location : option string) : list effect :=
  let data : gmap string string :=
    <["value" := value]> (<["condition" := name]> ∅) in
  let report_type := "report.condition" in
  let '(data, report_type) :=
    match when with
    | Some w =>
        if bool_decide (Py.date w <> Py.date today)
        then (<["day" := __to_day translate nice_date now w true]> data,
              report_type +:+ ".future")
        else (data, report_type)
    | None => (data, report_type)
    end in
  let '(data, report_type) :=
    match location with
    | Some l =>
        if bool_decide (l <> "")
        then (<["location" := l]> data, report_type +:+ ".at.location")
        else (data, report_type)
    | None => (data, report_type)
    end in
  [Speak report_type (Some data)].

(** The modifier of an amount of precipitation. *)
Definition modifier (amount : Q) : string :=
  if Qlt_bool amount 10 then __translate "light" false
  else if Qlt_bool 20 amount then __translate "heavy" false
  else "".

(** [precip and precip["all"] > 0]: [None] when the dictionary is empty or
    the amount not positive, the amount otherwise; a dictionary with
    entries but without "all" raises. *)
Definition amount_of (precip : gmap string Q) : result (option Q) :=
  if decide (precip = ∅) then Ok None
  else match precip !! "all" with
       | None => KeyError "all"
       | Some a => if Qlt_bool 0 a then Ok (Some a) else Ok None
       end.

(** The data spoken for a day with precipitation. *)
Definition expected (now : Py.datetime) (precip : string) (amount : Q)
    (forecastDate : Py.datetime) : gmap string string :=
  <["modifier" := modifier amount]>
    (<["day" := __to_day translate nice_date now forecastDate true]>
       (<["precip" := precip]> ∅)).

(** The loop of [handle_next_precipitation] over the daily weathers. *)
Fixpoint next_precipitation (now today : Py.datetime)
    (when : option Py.datetime) (report : gmap string string)
    (weathers : list day_weather) : handled :=
  match weathers with
  | [] => Ok [Speak "no precipitation expected" (Some report)]
  | weather :: rest =>
      let forecastDate := reference_time weather in
      let skip :=
        match when with
        | Some w => bool_decide (w <> today) &&
                    bool_decide (Py.date forecastDate <> Py.date w)
        | None => false
        end in
      if skip then next_precipitation now today when report rest
      else
        match amount_of (get_rain weather) with
        | KeyError key => KeyError key
        | Ok (Some a) =>
            Ok [Speak "precipitation expected"
                  (Some (expected now "rain" a forecastDate))]
        | Ok None =>
            match amount_of (get_snow weather) with
            | KeyError key => KeyError key
            | Ok (Some a) =>
                Ok [Speak "precipitation expected"
                      (Some (expected now "snow" a forecastDate))]
            | Ok None => next_precipitation now today when report rest
            end
        end
  end.

End WithHost.

(** A day the loop passes over: filtered out by the requested date, or
    without rain and without snow. *)
Definition passed_over (today : Py.datetime) (when : option Py.datetime)
    (weather : day_weather) : Prop :=
  (exists w, when = Some w /\ w <> today /\
             Py.date (reference_time weather) <> Py.date w) \/
  (amount_of (get_rain weather) = Ok None /\
   amount_of (get_snow weather) = Ok None).

(** A day the loop looks at. *)
Definition looked_at (today : Py.datetime) (when : option Py.datetime)
    (weather : day_weather) : Prop :=
  forall w, when = Some w -> w <> today ->
            Py.date (reference_time weather) = Py.date w.

End Conditions.

(** * Theorems *)

(** ** Rational comparisons *)

Lemma Qle_bool_true x y : Qle_bool x y = true <-> (x <= y)%Q.
Proof. apply Qle_bool_iff. Qed.

Lemma Qle_bool_false x y : Qle_bool x y = false <-> (y < x)%Q.
Proof.
  split; intros H.
  - apply Qnot_le_lt. intros Hle. apply Qle_bool_iff in Hle. congruence.
  - destruct (Qle_bool x y) eqn:E; [|reflexivity].
    apply Qle_bool_iff in E. exfalso. eapply Qlt_not_le; eassumption.
Qed.

(** Turns every boolean comparison of rationals in the context into an
    inequality of integers. *)
Ltac q_props :=
  unfold Wind.Qlt_bool in *;
  repeat match goal with
  | H : negb _ = true |- _ => apply negb_true_iff in H
  | H : negb _ = false |- _ => apply negb_false_iff in H
  | H : Qle_bool _ _ = true |- _ => apply Qle_bool_true in H
  | H : Qle_bool _ _ = false |- _ => apply Qle_bool_false in H
  end.

Ltac q_lia :=
  q_props; unfold Qle, Qlt in *; simpl in *; lia.

Ltac q_cases :=
  repeat match goal with
  | |- context [Qle_bool ?a ?b] => destruct (Qle_bool a b) eqn:?
  end.

(** ** Wind *)

Section WindFacts.
Import Config Wind.

Lemma wind_inv_new payload unit : wind_inv payload unit (__init__ payload unit).
Proof.
  unfold wind_inv, __init__; simpl.
  repeat split; try reflexivity.
  - destruct (payload !! "speed"); auto.
  - destruct (payload !! "deg"); auto.
Qed.

Lemma wind_inv_read payload unit a w :
  wind_inv payload unit w -> wind_inv payload unit (read a w).
Proof.
  intros (Hw & Hu & Hs & Hd).
  destruct a; unfold read, speed, strength, direction.
  - destruct (_speed w); simpl; [unfold wind_inv; auto|].
    rewrite Hw. destruct (payload !! "speed") eqn:E; simpl;
      unfold wind_inv; simpl; rewrite ?E; auto.
  - destruct (_strength w) eqn:Es; simpl;
      [unfold wind_inv; rewrite ?Es; auto|].
    rewrite Hw. destruct (payload !! "speed") eqn:E; simpl;
      unfold wind_inv; simpl; rewrite ?E, ?Es; auto.
  - rewrite Hw. destruct (_direction w) eqn:Ed; simpl;
      [unfold wind_inv; rewrite ?Ed; auto|].
    destruct (payload !! "deg") eqn:E; simpl;
      unfold wind_inv, compass; simpl; rewrite ?E, ?Ed; auto 6.
Qed.

Lemma wind_inv_reads payload unit l :
  forall w, wind_inv payload unit w -> wind_inv payload unit (reads l w).
Proof.
  induction l as [|a l IH]; intros w Hw; simpl; [assumption|].
  apply IH. apply wind_inv_read. assumption.
Qed.

Lemma strength_of_inv payload unit w raw :
  wind_inv payload unit w -> payload !! "speed" = Some raw ->
  fst (strength w) = Ok (classify raw).
Proof.
  intros (Hw & _ & Hs & _) E. rewrite E in Hs. unfold strength.
  destruct Hs as [-> | ->]; simpl; [|reflexivity].
  rewrite Hw, E. reflexivity.
Qed.

Lemma compass_some degree : exists s, compass degree = Some s.
Proof.
  unfold compass. destruct (Qle_bool 337.5 degree) eqn:E; [eauto|].
  unfold scan, WIND_DIRECTION_CONVERSION, Qlt_bool.
  q_cases; simpl; eauto.
  exfalso. q_lia.
Qed.

Lemma direction_of_inv payload unit w :
  wind_inv payload unit w ->
  fst (direction w) =
    match payload !! "deg" with
    | Some degree => compass degree
    | None => None
    end.
Proof.
  intros (Hw & _ & _ & Hd). unfold direction. rewrite Hw.
  destruct (payload !! "deg") as [degree|] eqn:E.
  - destruct Hd as [-> | Hd]; simpl; [reflexivity|].
    rewrite Hd. destruct (compass_some degree) as [s ->]. reflexivity.
  - rewrite Hd. reflexivity.
Qed.

Lemma classify_light raw : classify raw = "light" <-> (raw <= 2.2352)%Q.
Proof.
  unfold classify. q_cases; split; intros H; try discriminate;
    try reflexivity; try (exfalso; q_lia); q_lia.
Qed.

Lemma classify_medium raw :
  classify raw = "medium" <-> (2.2352 < raw /\ raw <= 6.7056)%Q.
Proof.
  unfold classify. q_cases; split; intros H; try discriminate;
    try reflexivity; try (exfalso; q_lia); try (split; q_lia).
Qed.

Lemma classify_hard raw : classify raw = "hard" <-> (6.7056 < raw)%Q.
Proof.
  unfold classify. q_cases; split; intros H; try discriminate;
    try reflexivity; try (exfalso; q_lia); q_lia.
Qed.

End WindFacts.

Section WindClaims.
Import Config Wind.

Lemma scan_first table degree cur bound0 name0 :
  In (bound0, name0) table -> (degree < bound0)%Q ->
  exists (i : nat) bound name,
    table !! i = Some (bound, name) /\ (degree < bound)%Q /\
    (forall (j : nat) b n, (j < i)%nat -> table !! j = Some (b, n) -> (b <= degree)%Q) /\
    scan table degree cur = Some name.
Proof.
  induction table as [|[b n] rest IH]; intros Hin Hlt; [destruct Hin|].
  simpl. destruct (Qlt_bool degree b) eqn:E.
  - exists 0%nat, b, n. repeat split; try reflexivity.
    + unfold Qlt_bool in E. q_props. assumption.
    + intros j b' n' Hj. lia.
  - assert (Hb : (b <= degree)%Q).
    { unfold Qlt_bool in E. q_props. assumption. }
    destruct Hin as [Heq | Hin].
    + inversion Heq; subst. exfalso. eapply Qlt_not_le; eassumption.
    + destruct (IH Hin Hlt) as (i & bound & name & Hi & Hd & Hprev & Hscan).
      exists (S i), bound, name. repeat split; try assumption.
      intros j b' n' Hj Hlook. destruct j as [|j]; simpl in Hlook.
      * inversion Hlook; subst. assumption.
      * eapply Hprev; [|eassumption]. lia.
Qed.

(** C4. The strength of a wind payload is "light" exactly when the raw
    provider speed is at most 2.2352, "medium" exactly when it is above
    2.2352 and at most 6.7056, and "hard" exactly when it is above 6.7056.
    It is computed from the raw speed: neither the configured speed unit nor
    an earlier read of the (possibly converted) speed changes it, and the
    payload is never written. *)
Theorem C4_strength_thresholds payload unit unit' l l' raw :
  payload !! "speed" = Some raw ->
  let s := fst (strength (reads l (__init__ payload unit))) in
  (s = Ok "light" <-> (raw <= 2.2352)%Q) /\
  (s = Ok "medium" <-> (2.2352 < raw /\ raw <= 6.7056)%Q) /\
  (s = Ok "hard" <-> (6.7056 < raw)%Q) /\
  s = fst (strength (reads l' (__init__ payload unit'))) /\
  _wind (reads l (__init__ payload unit)) = payload.
Proof.
  intros E s.
  assert (Hs : s = Ok (classify raw)).
  { eapply strength_of_inv; [|exact E].
    apply wind_inv_reads, wind_inv_new. }
  rewrite Hs. repeat split.
  - intros H. apply classify_light. congruence.
  - intros H. f_equal. apply classify_light. assumption.
  - apply classify_medium. congruence.
  - apply classify_medium. congruence.
  - intros H. f_equal. apply classify_medium. assumption.
  - intros H. apply classify_hard. congruence.
  - intros H. f_equal. apply classify_hard. assumption.
  - symmetry. eapply strength_of_inv; [|exact E].
    apply wind_inv_reads, wind_inv_new.
  - apply (wind_inv_reads payload unit l), wind_inv_new.
Qed.

Lemma C4_strength_thresholds_witness :
  fst (strength (reads [ReadSpeed]
         (__init__ {[ "speed" := 3%Q ]} (Some MILES_PER_HOUR)))) = Ok "medium" /\
  fst (strength (__init__ {[ "speed" := 3%Q ]} (Some METERS_PER_SECOND))) = Ok "medium".
Proof.
  pose proof (C4_strength_thresholds {[ "speed" := 3%Q ]}
                (Some MILES_PER_HOUR) (Some METERS_PER_SECOND)
                [ReadSpeed] [] 3%Q eq_refl) as H.
  cbv zeta in H. destruct H as (_ & Hm & _ & Heq & _).
  assert (Hmed : fst (strength (reads [ReadSpeed]
            (__init__ {[ "speed" := 3%Q ]} (Some MILES_PER_HOUR)))) = Ok "medium").
  { apply Hm. unfold Qle, Qlt. simpl. lia. }
  split; [exact Hmed|]. rewrite <- Hmed. symmetry. exact Heq.
Defined.

(** C5. For a degree in [0, 360): at 337.5 or above the direction is "N";
    below, it is the name paired with the first boundary of the table that
    strictly exceeds the degree. The eight names partition the circle:
    N is [0, 22.5) and [337.5, 360), NE is [22.5, 67.5), E is [67.5, 112.5),
    SE is [112.5, 157.5), S is [157.5, 202.5), SW is [202.5, 247.5),
    W is [247.5, 292.5) and NW is [292.5, 337.5). *)
Theorem C5_compass_buckets payload unit l degree :
  payload !! "deg" = Some degree ->
  (0 <= degree)%Q -> (degree < 360)%Q ->
  let d := fst (direction (reads l (__init__ payload unit))) in
  ((337.5 <= degree)%Q -> d = Some "N") /\
  ((degree < 337.5)%Q ->
     exists (i : nat) bound name,
       WIND_DIRECTION_CONVERSION !! i = Some (bound, name) /\
       (degree < bound)%Q /\
       (forall (j : nat) b n, (j < i)%nat ->
          WIND_DIRECTION_CONVERSION !! j = Some (b, n) -> (b <= degree)%Q) /\
       d = Some name) /\
  (d = Some "N" <-> (degree < 22.5 \/ 337.5 <= degree)%Q) /\
  (d = Some "NE" <-> (22.5 <= degree /\ degree < 67.5)%Q) /\
  (d = Some "E" <-> (67.5 <= degree /\ degree < 112.5)%Q) /\
  (d = Some "SE" <-> (112.5 <= degree /\ degree < 157.5)%Q) /\
  (d = Some "S" <-> (157.5 <= degree /\ degree < 202.5)%Q) /\
  (d = Some "SW" <-> (202.5 <= degree /\ degree < 247.5)%Q) /\
  (d = Some "W" <-> (247.5 <= degree /\ degree < 292.5)%Q) /\
  (d = Some "NW" <-> (292.5 <= degree /\ degree < 337.5)%Q).
Proof.
  intros E H0 H360 d.
  assert (Hd : d = compass degree).
  { unfold d. rewrite (direction_of_inv payload unit), E; [reflexivity|].
    apply wind_inv_reads, wind_inv_new. }
  rewrite Hd. clear Hd d E. split; [|split].
  - intros H. unfold compass.
    apply Qle_bool_true in H. rewrite H. reflexivity.
  - intros H. unfold compass.
    assert (Hf : Qle_bool 337.5 degree = false) by (apply Qle_bool_false; exact H).
    rewrite Hf.
    apply (scan_first WIND_DIRECTION_CONVERSION degree None 337.5%Q "NW");
      [|exact H].
    unfold WIND_DIRECTION_CONVERSION. simpl. tauto.
  - unfold compass, scan, WIND_DIRECTION_CONVERSION, Qlt_bool.
    q_cases; simpl; q_props;
      repeat split; intros; try discriminate; try reflexivity;
      try (exfalso; unfold Qle, Qlt in *; simpl in *; lia);
      try (unfold Qle, Qlt in *; simpl in *; lia).
Qed.

Lemma C5_compass_buckets_witness :
  fst (direction (__init__ {[ "deg" := 200%Q ]} None)) = Some "S".
Proof.
  pose proof (C5_compass_buckets {[ "deg" := 200%Q ]} None [] 200%Q eq_refl) as H.
  assert (H0 : (0 <= 200)%Q) by (unfold Qle; simpl; lia).
  assert (H1 : (200 < 360)%Q) by (unfold Qlt; simpl; lia).
  specialize (H H0 H1). cbv zeta in H.
  destruct H as (_ & _ & _ & _ & _ & _ & HS & _).
  apply HS. unfold Qle, Qlt. simpl. lia.
Defined.

(** C10. Reading [direction] gives [None] exactly when the wind payload has
    no "deg" entry; a payload with a degree (in [0, 360) or not) always
    gets one of the compass names. *)
Theorem C10_direction_none_iff_no_deg payload unit l :
  let d := fst (direction (reads l (__init__ payload unit))) in
  (d = None <-> payload !! "deg" = None) /\
  (forall degree, payload !! "deg" = Some degree ->
     exists name, d = Some name /\ In name (map snd WIND_DIRECTION_CONVERSION)).
Proof.
  intros d.
  assert (Hd : d = match payload !! "deg" with
                   | Some degree => compass degree
                   | None => None
                   end).
  { unfold d. apply (direction_of_inv payload unit).
    apply wind_inv_reads, wind_inv_new. }
  rewrite Hd. clear Hd d. split.
  - destruct (payload !! "deg") as [degree|].
    + destruct (compass_some degree) as [s ->]. split; discriminate.
    + tauto.
  - intros degree ->. unfold compass, scan, WIND_DIRECTION_CONVERSION, Qlt_bool.
    q_cases; simpl; eauto 12.
Qed.

Lemma C10_direction_none_iff_no_deg_witness :
  fst (direction (__init__ {[ "speed" := 4%Q ]} None)) = None /\
  exists name, fst (direction (__init__ {[ "deg" := 90%Q ]} None)) = Some name.
Proof.
  split.
  - apply (C10_direction_none_iff_no_deg {[ "speed" := 4%Q ]} None []).
    reflexivity.
  - destruct (C10_direction_none_iff_no_deg {[ "deg" := 90%Q ]} None [])
      as [_ H].
    destruct (H 90%Q eq_refl) as (name & Hn & _).
    exists name. exact Hn.
Defined.

End WindClaims.

(** ** Period of the day *)

Section TimePeriodClaims.
Import TimePeriod.

Lemma to_time_period_methods_agree when :
  __to_time_period when = to_time_period when.
Proof. reflexivity. Qed.

(** The branch that logs the error needs an hour that is below 20, not
    below 1 and in none of the four ranges between: there is none, whatever
    integer the hour is. *)
Lemma to_time_period_never_none when : fst (to_time_period when) <> None.
Proof.
  unfold to_time_period. destruct when as [d h]; simpl.
  destruct (20 <=? h) eqn:H20; destruct (h <? 1) eqn:H1;
    simpl; try discriminate.
  destruct (17 <=? h) eqn:H17; destruct (h <? 20) eqn:H20';
    simpl; try discriminate; try lia.
  destruct (12 <=? h) eqn:H12; destruct (h <? 17) eqn:H17';
    simpl; try discriminate; try lia.
  destruct (5 <=? h) eqn:H5; destruct (h <? 12) eqn:H12';
    simpl; try discriminate; try lia.
  destruct (1 <=? h) eqn:H1'; destruct (h <? 5) eqn:H5';
    simpl; try discriminate; lia.
Qed.

(** C3. For every hour from 0 to 23 both period-of-day functions return the
    same single bucket and log nothing: early morning for 1-4, morning for
    5-11, afternoon for 12-16, evening for 17-19 and overnight for 20-23
    and 0. The result is never [None]. *)
Theorem C3_period_of_day_total (when : Py.datetime) :
  0 <= Py.hour when <= 23 ->
  let h := Py.hour when in
  let r := to_time_period when in
  __to_time_period when = r /\
  r = (Some (spec_bucket h), []) /\
  fst r <> None /\
  (1 <= h <= 4 -> fst r = Some "early morning") /\
  (5 <= h <= 11 -> fst r = Some "morning") /\
  (12 <= h <= 16 -> fst r = Some "afternoon") /\
  (17 <= h <= 19 -> fst r = Some "evening") /\
  (20 <= h <= 23 \/ h = 0 -> fst r = Some "overnight").
Proof.
  destruct when as [d h]. simpl. intros Hh.
  assert (Hcases : h = 0 \/ h = 1 \/ h = 2 \/ h = 3 \/ h = 4 \/ h = 5 \/
                   h = 6 \/ h = 7 \/ h = 8 \/ h = 9 \/ h = 10 \/ h = 11 \/
                   h = 12 \/ h = 13 \/ h = 14 \/ h = 15 \/ h = 16 \/
                   h = 17 \/ h = 18 \/ h = 19 \/ h = 20 \/ h = 21 \/
                   h = 22 \/ h = 23) by lia.
  repeat (destruct Hcases as [-> | Hcases]); try subst h;
    (split; [reflexivity|]); (split; [reflexivity|]);
    (split; [discriminate|]);
    repeat split; intros; try reflexivity; lia.
Qed.

Lemma C3_period_of_day_total_witness :
  fst (to_time_period {| Py.date := 738000; Py.hour := 9 |}) = Some "morning".
Proof.
  pose proof (C3_period_of_day_total {| Py.date := 738000; Py.hour := 9 |}) as H.
  simpl in H.
  assert (H9 : 0 <= 9 <= 23) by lia.
  destruct (H H9) as (_ & _ & _ & _ & Hm & _).
  apply Hm. lia.
Defined.

End TimePeriodClaims.

(** ** Runs of consecutive indices *)

Section SeqsClaims.
Import Seqs.

(** C7. The indices 0, 1, 2, 5, 6 are compressed into the two runs
    [0, 1, 2] and [5, 6], in that order. *)
Theorem C7_get_seqs_example :
  __get_seqs_from_list [0; 1; 2; 5; 6] = [[0; 1; 2]; [5; 6]].
Proof. vm_compute. reflexivity. Qed.

(** An index with no neighbour is not a run. *)
Example get_seqs_isolated_index :
  __get_seqs_from_list [0; 2; 3; 6] = [[2; 3]].
Proof. vm_compute. reflexivity. Qed.

End SeqsClaims.

(** ** Speakable days *)

Lemma append_cons c (a b : string) : String c a +:+ b = String c (a +:+ b).
Proof. reflexivity. Qed.

Lemma before_comma_append a b :
  Py.has_comma a = false ->
  Py.before_comma (a +:+ " " +:+ b) = a +:+ " " +:+ Py.before_comma b.
Proof.
  induction a as [|c a IH]; intros H.
  - reflexivity.
  - simpl in H. apply orb_false_iff in H as [Hc Ha].
    rewrite !append_cons. simpl. rewrite Hc. f_equal. apply IH, Ha.
Qed.

Section DayClaims.
Import Skill.
Variable translate : string -> string.
Variable nice_date : Py.datetime -> Py.datetime -> string.

(** C6. With prefacing enabled, a day one day before, on, or one day after
    "now" is spoken without the "on <date>" preface, and every other day
    with it; the text is cut at its first comma (leaving the weekday name
    of a long date) when the day is at most 6 days ahead. When the preface
    text has no comma, the cut leaves the preface whole. *)
Theorem C6_to_day_preface now when :
  let days_diff := Py.date when - Py.date now in
  let spoken := nice_date when now in
  let on := translate "on.date" in
  let r := __to_day translate nice_date now when true in
  (-1 <= days_diff <= 1 -> r = Py.before_comma spoken) /\
  (days_diff < -1 \/ 1 < days_diff <= 6 ->
     r = Py.before_comma (on +:+ " " +:+ spoken)) /\
  (6 < days_diff -> r = on +:+ " " +:+ spoken) /\
  (Py.has_comma on = false -> days_diff < -1 \/ 1 < days_diff ->
     r = on +:+ " " +:+
         (if days_diff <=? 6 then Py.before_comma spoken else spoken)).
Proof.
  intros days_diff spoken on r. unfold r, __to_day.
  fold days_diff. fold spoken. fold on. simpl.
  destruct (-1 >? days_diff) eqn:E1; destruct (days_diff >? 1) eqn:E2;
    destruct (days_diff <=? 6) eqn:E3; simpl;
    repeat split; intros;
    try rewrite before_comma_append by assumption;
    try reflexivity; lia.
Qed.

(** Without prefacing no day gets the preface. *)
Lemma to_day_no_preface now when :
  __to_day translate nice_date now when false =
  if Py.date when - Py.date now <=? 6
  then Py.before_comma (nice_date when now) else nice_date when now.
Proof. reflexivity. Qed.

End DayClaims.

Lemma C6_to_day_preface_witness :
  let now := {| Py.date := 736850; Py.hour := 8 |} in
  let nice := fun _ _ : Py.datetime => "tuesday, june the fifth" in
  Skill.__to_day (fun _ => "on") nice now {| Py.date := 736851; Py.hour := 8 |} true
    = "tuesday" /\
  Skill.__to_day (fun _ => "on") nice now {| Py.date := 736853; Py.hour := 8 |} true
    = "on tuesday" /\
  Skill.__to_day (fun _ => "on") nice now {| Py.date := 736860; Py.hour := 8 |} true
    = "on tuesday, june the fifth".
Proof.
  intros now nice.
  pose proof (C6_to_day_preface (fun _ => "on") nice now
                {| Py.date := 736851; Py.hour := 8 |}) as H1.
  pose proof (C6_to_day_preface (fun _ => "on") nice now
                {| Py.date := 736853; Py.hour := 8 |}) as H3.
  pose proof (C6_to_day_preface (fun _ => "on") nice now
                {| Py.date := 736860; Py.hour := 8 |}) as H10.
  cbv zeta in H1, H3, H10. simpl Py.date in H1, H3, H10.
  destruct H1 as (H1 & _). destruct H3 as (_ & _ & _ & H3).
  destruct H10 as (_ & _ & H10 & _).
  split; [|split].
  - apply H1. lia.
  - apply H3; [reflexivity | lia].
  - apply H10. lia.
Defined.

(** ** API errors *)

Section ErrorClaims.
Import Skill.

(** C8. An API error caught by a handler is passed to [__api_error]: a
    location-not-found error speaks "location.not.found"; an HTTP error
    with status 401 emits "mycroft.not.paired" and speaks nothing; every
    other HTTP error speaks the generic "cant.get.forecast". *)
Theorem C8_api_error_dispatch :
  (forall trace e, guarded (trace, Some e) = trace ++ __api_error e) /\
  __api_error LocationNotFoundError = [Speak "location.not.found" None] /\
  __api_error (HTTPError 401) = [Emit "mycroft.not.paired"] /\
  (forall dialog data, ~ In (Speak dialog data) (__api_error (HTTPError 401))) /\
  (forall status_code, status_code <> 401 ->
     __api_error (HTTPError status_code) = _report_no_data None /\
     __api_error (HTTPError status_code) = [Speak "cant.get.forecast" None]).
Proof.
  repeat split.
  - intros dialog data [H | []]. discriminate.
  - simpl. destruct (status_code =? 401) eqn:E; [lia | reflexivity].
  - simpl. destruct (status_code =? 401) eqn:E; [lia | reflexivity].
Qed.

Lemma C8_api_error_dispatch_witness :
  __api_error (HTTPError 500) = [Speak "cant.get.forecast" None].
Proof.
  destruct C8_api_error_dispatch as (_ & _ & _ & _ & H).
  apply (H 500). lia.
Defined.

End ErrorClaims.

(** ** Dialog selection *)

Section DialogClaims.
Import Report Skill.
Variable voc_match : option string -> string -> bool.
Variable templates : gset string.

Lemma base_dialog_lineage report noun e :
  In (base_dialog voc_match report noun e)
     [ "affirmative.condition"; "cond.alternative";
       Py.lower e +:+ ".alternative";
       "no." +:+ Py.lower noun +:+ ".predicted"; "no.cond.predicted" ].
Proof.
  unfold base_dialog.
  destruct (voc_match _ (Py.capitalize e)); [simpl; tauto|].
  destruct (bool_decide (time report <> None));
    destruct (voc_match _ _); simpl; tauto.
Qed.

(** C2. For a populated report the selected dialog is one of the lineages
    affirmative, alternative, no.<condition>.predicted and
    no.cond.predicted, prefixed with "local." exactly when the message has
    no "Location", then with "forecast." exactly when the report has a day,
    then with "at.time." exactly when the report has a time of day and a
    template of that prefixed name is registered. *)
Theorem C2_condition_dialog_shape message report noun exp :
  let e := match exp with None => noun | Some e => e end in
  exists (at_time forecast local : bool) (base : string),
    __select_condition_dialog voc_match templates message (Some report) noun exp
      = (if at_time then "at.time." else "") +:+
        (if forecast then "forecast." else "") +:+
        (if local then "local." else "") +:+ base /\
    base = base_dialog voc_match report noun e /\
    In base [ "affirmative.condition"; "cond.alternative";
              Py.lower e +:+ ".alternative";
              "no." +:+ Py.lower noun +:+ ".predicted"; "no.cond.predicted" ] /\
    (local = true <-> data message !! "Location" = None) /\
    (forecast = true <-> day report <> None) /\
    (at_time = true <->
       time report <> None /\
       "at.time." +:+ (if forecast then "forecast." else "") +:+
         (if local then "local." else "") +:+ base ∈ templates).
Proof.
  intros e. unfold __select_condition_dialog. fold e.
  set (base := base_dialog voc_match report noun e).
  destruct (bool_decide (data message !! "Location" = None)) eqn:EL;
    destruct (bool_decide (day report <> None)) eqn:ED;
    match goal with
    | |- context [bool_decide (time report <> None) && bool_decide (?x ∈ templates)] =>
        destruct (bool_decide (time report <> None)) eqn:ET;
        destruct (bool_decide (x ∈ templates)) eqn:EA
    end; simpl;
    repeat match goal with
    | H : bool_decide _ = true |- _ => apply bool_decide_eq_true in H
    | H : bool_decide _ = false |- _ => apply bool_decide_eq_false in H
    end;
    match goal with
    | |- exists _ _ _ _, ?r = _ /\ _ =>
        (* the three flags are read off the hypotheses *)
        first
          [ exists true, true, true, base; split; [reflexivity|]
          | exists true, true, false, base; split; [reflexivity|]
          | exists true, false, true, base; split; [reflexivity|]
          | exists true, false, false, base; split; [reflexivity|]
          | exists false, true, true, base; split; [reflexivity|]
          | exists false, true, false, base; split; [reflexivity|]
          | exists false, false, true, base; split; [reflexivity|]
          | exists false, false, false, base; split; [reflexivity|] ]
    end;
    (split; [reflexivity|]);
    (split; [apply base_dialog_lineage|]);
    repeat split; intros; try assumption; try discriminate;
    try tauto.
Qed.

(** With no report at all the selector answers "do not know". *)
Lemma select_condition_dialog_no_report message noun exp :
  __select_condition_dialog voc_match templates message None noun exp
  = "do not know".
Proof. reflexivity. Qed.

End DialogClaims.

(** ** Temperature unit *)

Section UnitClaims.
Import Config Report Skill.

(** The configuration alone resolves the unit as intended: with no stored
    setting a metric system gives celsius, any other system fahrenheit. *)
Lemma temperature_unit_system_default core settings city state country system :
  settings !! "units" = None ->
  core !! "system_unit" = Some system ->
  fst (Config.temperature_unit (Config.__init__ core settings city state country))
  = Ok (Some (if decide (system = METRIC) then CELSIUS else FAHRENHEIT)).
Proof.
  intros Hs Hc. unfold Config.temperature_unit, Config.__init__. simpl.
  rewrite Hs, Hc. destruct (decide (system = METRIC)); reflexivity.
Qed.

(** A stored setting wins over the system default. *)
Lemma temperature_unit_stored_setting core settings city state country system u :
  settings !! "units" = Some u ->
  core !! "system_unit" = Some system ->
  (Py.lower u = FAHRENHEIT ->
   fst (Config.temperature_unit (Config.__init__ core settings city state country))
   = Ok (Some FAHRENHEIT)) /\
  (Py.lower u = CELSIUS ->
   fst (Config.temperature_unit (Config.__init__ core settings city state country))
   = Ok (Some CELSIUS)).
Proof.
  intros Hs Hc. unfold Config.temperature_unit, Config.__init__. simpl.
  rewrite Hs, Hc. split; intros Hu; rewrite Hu; reflexivity.
Qed.

(** [_get_requested_unit] answers [None] for every message and every
    vocabulary. *)
Lemma get_requested_unit_none voc_match message :
  _get_requested_unit voc_match message = None.
Proof. reflexivity. Qed.

(** So every report initialised from a message has no unit, whatever the
    configuration resolved. *)
Lemma initialize_report_unit_none voc_match c message report c' :
  _initialize_report voc_match c (Some message) = (Ok report, c') ->
  Report.temperature_unit report = None.
Proof.
  unfold _initialize_report. destruct (Report.__init__ c) as [[r | k] c0];
    intros H; inversion H; reflexivity.
Qed.

(** The unit that [__get_temperature] falls back to shows the intended
    order: a requested unit first, the configuration otherwise. *)
Lemma effective_unit_prefers_request c u :
  u <> "" -> effective_unit c (Some u) = (Ok (Some u), c).
Proof.
  intros Hu. unfold effective_unit. destruct (decide (u = "")); congruence.
Qed.

(** C1 (at the failing input). A message whose "Unit" slot is "fahrenheit",
    on a metric system with no stored setting: the requested unit is
    reported as absent and the report is initialised without a unit, not
    with fahrenheit, although the configuration resolves to celsius and the
    vocabulary would match. *)
Theorem C1_fahrenheit_request_dropped :
  let message :=
    {| data := {[ "Unit" := "fahrenheit";
                  "utterance" := "what is the temperature in fahrenheit" ]} |} in
  let c := Config.__init__ {[ "system_unit" := "metric" ]} ∅
                      "Lawrence" "Kansas" "United States" in
  forall voc_match : option string -> string -> bool,
    data message !! "Unit" = Some FAHRENHEIT /\
    fst (Config.temperature_unit c) = Ok (Some CELSIUS) /\
    _get_requested_unit voc_match message = None /\
    exists report c',
      _initialize_report voc_match c (Some message) = (Ok report, c') /\
      Report.temperature_unit report = None /\
      Report.temperature_unit report <> Some FAHRENHEIT.
Proof.
  intros message c voc_match.
  split; [vm_compute; reflexivity|].
  split; [vm_compute; reflexivity|].
  split; [reflexivity|].
  destruct (_initialize_report voc_match c (Some message)) as [[report | k] c'] eqn:E.
  - exists report, c'. split; [reflexivity|].
    rewrite (initialize_report_unit_none _ _ _ _ _ E).
    split; [reflexivity | discriminate].
  - exfalso. revert E. unfold _initialize_report, Report.__init__.
    assert (Ht : Config.temperature_unit c
                 = (Ok (Some CELSIUS), set_temperature_unit (Some CELSIUS) c))
      by (vm_compute; reflexivity).
    rewrite Ht. discriminate.
Qed.

End UnitClaims.

(** ** Splitting and joining names *)

Section SplitJoin.
Import Py.

Lemma append_nil_r (s : string) : s +:+ "" = s.
Proof. induction s as [|c s IH]; [reflexivity|]. rewrite append_cons, IH. reflexivity. Qed.

Lemma append_assoc (a b c : string) : (a +:+ b) +:+ c = a +:+ (b +:+ c).
Proof.
  induction a as [|x a IH]; [reflexivity|].
  rewrite !append_cons, IH. reflexivity.
Qed.

Lemma has_space_append a b :
  has_space (a +:+ b) = (has_space a || has_space b)%bool.
Proof.
  induction a as [|x a IH]; [reflexivity|].
  rewrite append_cons. simpl. rewrite IH. apply orb_assoc.
Qed.

Lemma append_empty (a b : string) : a +:+ b = "" -> a = "" /\ b = "".
Proof. destruct a; [simpl; auto | rewrite append_cons; discriminate]. Qed.

Lemma flush_word w : has_space w = false -> Forall (fun x => is_word x = true) (flush w).
Proof.
  intros H. destruct w as [|c w]; simpl; constructor; [|constructor].
  unfold is_word. rewrite H. reflexivity.
Qed.

(** Reading a whitespace-free text extends the current word. *)
Lemma split_go_word x : forall w rest,
  has_space x = false -> split_go w (x +:+ rest) = split_go (w +:+ x) rest.
Proof.
  induction x as [|c x IH]; intros w rest H.
  - rewrite append_nil_r. reflexivity.
  - simpl in H. apply orb_false_iff in H as [Hc Hx].
    rewrite append_cons. simpl. rewrite Hc.
    rewrite IH by assumption. rewrite append_assoc. reflexivity.
Qed.

Lemma split_go_words s : forall w,
  has_space w = false -> Forall (fun x => is_word x = true) (split_go w s).
Proof.
  induction s as [|c s IH]; intros w H; simpl.
  - apply flush_word, H.
  - destruct (isspace c) eqn:Ec.
    + apply Forall_app. split; [apply flush_word, H | apply IH; reflexivity].
    + apply IH. rewrite has_space_append, H. simpl. rewrite Ec. reflexivity.
Qed.

Lemma split_words s : Forall (fun x => is_word x = true) (split s).
Proof. apply split_go_words. reflexivity. Qed.

Lemma is_word_inv w : is_word w = true -> w <> "" /\ has_space w = false.
Proof.
  destruct w as [|c w]; [discriminate|]. unfold is_word.
  intros H. apply negb_true_iff in H. split; [discriminate | exact H].
Qed.

(** Joining words with one space and splitting again gives the words. *)
Lemma split_join ws :
  Forall (fun x => is_word x = true) ws -> split (join " " ws) = ws.
Proof.
  induction ws as [|x ws IH]; intros H; [reflexivity|].
  inversion H as [|? ? Hx Hws]; subst.
  apply is_word_inv in Hx as [Hne Hsp].
  destruct ws as [|y ws].
  - simpl. unfold split. rewrite <- (append_nil_r x) at 1.
    rewrite split_go_word by assumption. simpl.
    destruct x; [congruence | reflexivity].
  - change (join " " (x :: y :: ws)) with (x +:+ " " +:+ join " " (y :: ws)).
    unfold split. rewrite split_go_word by assumption.
    change (" " +:+ join " " (y :: ws))
      with (String " "%char (join " " (y :: ws))).
    simpl split_go. 
    destruct x as [|c x]; [congruence|].
    change ("" +:+ String c x) with (String c x). simpl flush.
    simpl. f_equal. apply IH, Hws.
Qed.

Lemma Forall_but_last {A} (P : A -> Prop) (l : list A) :
  Forall P l -> Forall P (but_last l).
Proof.
  unfold but_last. induction l as [|x l IH]; intros H; [constructor|].
  inversion H; subst. simpl. destruct l; [constructor|].
  constructor; [assumption | apply IH; assumption].
Qed.

Lemma length_but_last {A} (l : list A) :
  length (but_last l) = Nat.pred (length l).
Proof.
  unfold but_last. induction l as [|x l IH]; [reflexivity|].
  simpl. destruct l; [reflexivity|]. simpl in *. rewrite IH. reflexivity.
Qed.

End SplitJoin.

(** ** Provider lookup *)

Section ApiFacts.
Import Skill Api.

Lemma split_shorten name : Py.split (shorten name) = Py.but_last (Py.split name).
Proof.
  unfold shorten. apply split_join, Forall_but_last, split_words.
Qed.

Lemma shorten_short name :
  (length (Py.split name) <= 1)%nat -> shorten name = "".
Proof.
  unfold shorten, Py.but_last. destruct (Py.split name) as [|x [|y l]];
    simpl; intros H; try reflexivity. lia.
Qed.

Lemma shorten_long name :
  (2 <= length (Py.split name))%nat -> shorten name <> "".
Proof.
  intros H E.
  pose proof (split_shorten name) as Hs. rewrite E in Hs.
  apply (f_equal length) in Hs. rewrite length_but_last in Hs.
  change (length (Py.split "")) with 0%nat in Hs. lia.
Qed.

(** Each retry lowers the bound. *)
Lemma retry_bound_shorten name :
  name <> "" -> (retry_bound (shorten name) < retry_bound name)%nat.
Proof.
  intros Hne. unfold retry_bound at 2.
  destruct (decide (name = "")) as [|_]; [congruence|].
  destruct (le_lt_dec (length (Py.split name)) 1) as [Hs | Hl].
  - unfold retry_bound. rewrite (shorten_short name Hs). simpl. lia.
  - unfold retry_bound.
    destruct (decide (shorten name = "")) as [E|_]; [lia|].
    rewrite split_shorten, length_but_last. lia.
Qed.

Lemma retry_bound_words name :
  (retry_bound name <= Nat.max 1 (length (Py.split name)))%nat /\
  (name = "" -> retry_bound name = 0%nat) /\
  (Py.split name <> [] -> retry_bound name = length (Py.split name)).
Proof.
  unfold retry_bound. destruct (decide (name = "")) as [->|Hne].
  - split; [lia|]. split; [reflexivity|].
    intros H. exfalso. apply H. reflexivity.
  - split; [lia|]. split; [congruence|].
    intros H. destruct (Py.split name); [congruence | simpl; lia].
Qed.

Context {Data Observation Forecast : Type}.
Variable parse_JSON : Data -> Observation.
Variable to_forecast : Data -> option Forecast.
Variable request : nat -> string -> string -> option Z -> response Data.

(** [weather_at_location] ends within the bound, with the same result for
    every sufficient budget. *)
Lemma weather_at_location_ends k : forall name n,
  (retry_bound name <= k)%nat ->
  exists out retries,
    (forall fuel, (k < fuel)%nat ->
       weather_at_location parse_JSON request fuel n name = Some (out, retries)) /\
    (n <= retries <= n + retry_bound name)%nat /\
    (name = "" -> out = Raised LocationNotFoundError) /\
    (forall status_code, out = Raised (HTTPError status_code) -> status_code <> 404).
Proof.
  induction k as [|k IH]; intros name n Hk.
  - (* bound 0: the name is empty *)
    assert (name = "") as ->.
    { unfold retry_bound in Hk. destruct (decide (name = "")); [assumption|lia]. }
    exists (Raised LocationNotFoundError), n. repeat split; try lia.
    + intros [|fuel] Hf; [lia | reflexivity].
    + discriminate.
  - destruct (decide (name = "")) as [->|Hne].
    { exists (Raised LocationNotFoundError), n. repeat split; try lia.
      - intros [|fuel] Hf; [lia | reflexivity].
      - discriminate. }
    destruct (request n "/weather" name None) as [d | status_code] eqn:Er.
    + exists (Return (parse_JSON d, name)), n. repeat split; try lia.
      * intros [|fuel] Hf; [lia|]. simpl.
        destruct (decide (name = "")); [congruence|]. rewrite Er. reflexivity.
      * congruence.
      * discriminate.
    + destruct (status_code =? 404) eqn:E404.
      * pose proof (retry_bound_shorten name Hne) as Hlt.
        destruct (IH (shorten name) (S n)) as (out & retries & Hrun & Hr & He & Hc);
          [lia|].
        exists out, retries. repeat split; try lia.
        -- intros [|fuel] Hf; [lia|]. simpl.
           destruct (decide (name = "")); [congruence|].
           rewrite Er, E404. apply Hrun. lia.
        -- congruence.
        -- exact Hc.
      * exists (Raised (HTTPError status_code)), n. repeat split; try lia.
        -- intros [|fuel] Hf; [lia|]. simpl.
           destruct (decide (name = "")); [congruence|].
           rewrite Er, E404. reflexivity.
        -- congruence.
        -- intros c Hc. inversion Hc; subst. lia.
Qed.

(** The loop of [_daily_forecast_at_location] ends within the bound when
    the provider answers with results and 404s only. *)
Lemma daily_loop_ends k : forall orig name n limit translations,
  only_not_found request ->
  (retry_bound name <= k)%nat ->
  exists out tr retries,
    (forall fuel, (k < fuel)%nat ->
       daily_loop to_forecast request fuel n orig name limit translations
       = Some (out, tr, retries)) /\
    (n <= retries <= n + retry_bound name)%nat /\
    (out = Raised LocationNotFoundError /\ tr = translations \/
     exists d found, out = Return (to_forecast d) /\
                     found <> "" /\ tr = <[orig := found]> translations).
Proof.
  induction k as [|k IH]; intros orig name n limit translations Honly Hk.
  - assert (name = "") as ->.
    { unfold retry_bound in Hk. destruct (decide (name = "")); [assumption|lia]. }
    exists (Raised LocationNotFoundError), translations, n.
    repeat split; try lia; [|left; auto].
    intros [|fuel] Hf; [lia | reflexivity].
  - destruct (decide (name = "")) as [->|Hne].
    { exists (Raised LocationNotFoundError), translations, n.
      repeat split; try lia; [|left; auto].
      intros [|fuel] Hf; [lia | reflexivity]. }
    destruct (request n "/forecast/daily" name limit) as [d | status_code] eqn:Er.
    + exists (Return (to_forecast d)), (<[orig := name]> translations), n.
      repeat split; try lia.
      * intros [|fuel] Hf; [lia|]. simpl.
        destruct (decide (name = "")); [congruence|]. rewrite Er. reflexivity.
      * right. exists d, name. auto.
    + assert (status_code = 404) as -> by (eapply Honly; exact Er).
      pose proof (retry_bound_shorten name Hne) as Hlt.
      destruct (IH orig (shorten name) (S n) limit translations Honly)
        as (out & tr & retries & Hrun & Hr & Hout); [lia|].
      exists out, tr, retries. repeat split; try lia; [|exact Hout].
      intros [|fuel] Hf; [lia|]. simpl.
      destruct (decide (name = "")); [congruence|].
      rewrite Er. simpl. apply Hrun. lia.
Qed.

(** A provider that keeps failing with a status other than 404 keeps the
    loop of [_daily_forecast_at_location] on the same name for ever: no
    budget is enough. [weather_at_location] re-raises the error instead. *)
Lemma daily_loop_spins status_code orig name limit translations :
  status_code <> 404 -> name <> "" ->
  (forall n path q cnt, request n path q cnt = Fails status_code) ->
  forall fuel n,
    daily_loop to_forecast request fuel n orig name limit translations = None.
Proof.
  intros Hc Hne Hreq fuel. induction fuel as [|fuel IH]; intros n; [reflexivity|].
  simpl. destruct (decide (name = "")); [congruence|].
  rewrite Hreq. destruct (status_code =? 404) eqn:E; [lia|]. apply IH.
Qed.

End ApiFacts.

Section ApiClaims.
Import Skill Api.
Context {Data Observation Forecast : Type}.
Variable parse_JSON : Data -> Observation.
Variable to_forecast : Data -> option Forecast.
Variable request : nat -> string -> string -> option Z -> response Data.

(** C9 (as amended). [weather_at_location] terminates for every name and
    every provider: each 404 retry drops the last word, so after at most
    max(1, number of words) retries (exactly at most the number of words
    when the name has a word, none when it is empty) it returns a result,
    raises LocationNotFoundError, or re-raises the provider's HTTP error
    when its status is not 404. [_daily_forecast_at_location] obeys the same
    bound, and ends with a forecast or LocationNotFoundError, when the
    provider answers only with results and 404s. *)
Theorem C9_lookup_retries_bounded name limit translations :
  let bound := retry_bound name in
  (bound <= Nat.max 1 (length (Py.split name)))%nat /\
  (Py.split name <> [] -> bound = length (Py.split name)) /\
  (exists out retries,
     (forall fuel, (bound < fuel)%nat ->
        weather_at_location parse_JSON request fuel 0 name = Some (out, retries)) /\
     (retries <= bound)%nat /\
     (name = "" -> out = Raised LocationNotFoundError /\ retries = 0%nat) /\
     (forall status_code,
        out = Raised (HTTPError status_code) -> status_code <> 404)) /\
  (only_not_found request ->
   let name' := match translations !! name with
                | Some t => t
                | None => name
                end in
   exists out tr retries,
     (forall fuel, (retry_bound name' < fuel)%nat ->
        _daily_forecast_at_location to_forecast request fuel name limit translations
        = Some (out, tr, retries)) /\
     (retries <= retry_bound name')%nat /\
     (out = Raised LocationNotFoundError \/ exists forecast, out = Return forecast)).
Proof.
  intros bound.
  destruct (retry_bound_words name) as (Hmax & Hempty & Hwords).
  split; [exact Hmax|]. split; [exact Hwords|]. split.
  - destruct (weather_at_location_ends parse_JSON request bound name 0)
      as (out & retries & Hrun & Hr & He & Hc); [unfold bound; lia|].
    exists out, retries. repeat split; try assumption; try (fold bound in Hr; lia).
    + apply He. assumption.
    + specialize (Hempty H). fold bound in Hr. unfold bound in *. lia.
  - intros Honly name'.
    destruct (daily_loop_ends to_forecast request (retry_bound name')
                name' name' 0 limit translations Honly)
      as (out & tr & retries & Hrun & Hr & Hout); [lia|].
    exists out, tr, retries. repeat split; try lia.
    + intros fuel Hf. unfold _daily_forecast_at_location. fold name'.
      apply Hrun, Hf.
    + destruct Hout as [[-> _] | (d & found & -> & _)]; eauto.
Qed.

End ApiClaims.

Lemma C9_lookup_retries_bounded_witness :
  let request := fun (_ : nat) (_ q : string) (_ : option Z) =>
                   if decide (q = "paris") then Api.Resp q else Api.Fails 404 in
  (exists out retries,
     Api.weather_at_location id request 3 0 "paris texas" = Some (out, retries) /\
     (retries <= 2)%nat) /\
  (exists out tr retries,
     Api._daily_forecast_at_location Some request 3 "paris texas" (Some 14) ∅
     = Some (out, tr, retries) /\
     (retries <= 2)%nat).
Proof.
  intros request.
  assert (Honly : Api.only_not_found request).
  { intros n path q cnt status_code. unfold request.
    destruct (decide (q = "paris")); intros H; inversion H. reflexivity. }
  assert (Hb : Api.retry_bound "paris texas" = 2%nat) by (vm_compute; reflexivity).
  destruct (C9_lookup_retries_bounded id Some request "paris texas" (Some 14) ∅)
    as (_ & _ & Hw & Hd).
  split.
  - destruct Hw as (out & retries & Hrun & Hr & _).
    exists out, retries. rewrite Hb in Hrun, Hr.
    split; [apply Hrun; lia | exact Hr].
  - destruct (Hd Honly) as (out & tr & retries & Hrun & Hr & _).
    change (match (∅ : gmap string string) !! "paris texas" with
            | Some t => t
            | None => "paris texas"
            end) with "paris texas" in Hrun, Hr.
    exists out, tr, retries. rewrite Hb in Hrun, Hr.
    split; [apply Hrun; lia | exact Hr].
Defined.

(** C9 as stated fails twice. A name that is one space has no word, yet its
    lookup makes one retry before LocationNotFoundError; and when the
    provider fails with status 500 the lookup of "london" ends with neither
    a result nor LocationNotFoundError. *)
Lemma C9_counterexample :
  ~ (exists fuel out retries,
       Api.weather_at_location (@id unit) (fun _ _ _ _ => Api.Fails 404)
         fuel 0 " " = Some (out, retries) /\
       (retries <= length (Py.split " "))%nat) /\
  ~ (exists fuel out retries,
       Api.weather_at_location (@id unit) (fun _ _ _ _ => Api.Fails 500)
         fuel 0 "london" = Some (out, retries) /\
       (out = Api.Raised Skill.LocationNotFoundError \/
        exists r, out = Api.Return r)).
Proof.
  split.
  - intros (fuel & out & retries & H & Hle).
    change (length (Py.split " ")) with 0%nat in Hle.
    destruct fuel as [|[|fuel]]; simpl in H; try discriminate.
    inversion H; subst. lia.
  - intros (fuel & out & retries & H & Hout).
    destruct fuel as [|fuel]; simpl in H; try discriminate.
    inversion H; subst.
    destruct Hout as [Hout | [r Hout]]; discriminate.
Qed.

(** * Further properties of the code *)

(** ** Runs of consecutive indices, in general *)

Section SeqsGeneral.
Import Seqs SeqsLoop.

Lemma next_is_successor_head pre day rest :
  next_is_successor (pre ++ day :: rest) (length pre) day
  = match head rest with Some n => n =? day + 1 | None => false end.
Proof.
  unfold next_is_successor.
  replace (length pre + 1)%nat with (length pre + 1 + 0)%nat by lia.
  rewrite lookup_app_r by lia.
  replace (length pre + 1 + 0 - length pre)%nat with 1%nat by lia.
  destruct rest as [|n rest]; simpl.
  - rewrite andb_false_r. reflexivity.
  - rewrite bool_decide_eq_true_2; [reflexivity|].
    rewrite length_app. simpl. lia.
Qed.

Lemma body_step pre day rest st :
  body (pre ++ day :: rest) st (length pre, day) = step (head rest) st day.
Proof.
  unfold body, step. rewrite next_is_successor_head. reflexivity.
Qed.

Lemma fold_loop l : forall pre st,
  fold_left (body (pre ++ l)) (imap (fun i x => (length pre + i, x)%nat) l) st
  = loop st l.
Proof.
  induction l as [|day rest IH]; intros pre st; [reflexivity|].
  rewrite imap_cons. cbn [fold_left].
  replace (length pre + 0)%nat with (length pre) by lia.
  rewrite (body_step pre day rest st). cbn [loop].
  specialize (IH (pre ++ [day]) (step (head rest) st day)).
  rewrite <- app_assoc in IH. simpl in IH. rewrite <- IH.
  f_equal. apply imap_ext. intros i x _. simpl.
  rewrite length_app. simpl. f_equal. lia.
Qed.

Lemma get_seqs_loop nums :
  __get_seqs_from_list nums = seq_nums (loop init nums).
Proof.
  unfold __get_seqs_from_list, enumerate.
  rewrite <- (fold_loop nums []). reflexivity.
Qed.

End SeqsGeneral.

Section SeqsRuns.
Import Seqs SeqsLoop.

Lemma consecutive_snoc l x :
  consecutive l -> (l = [] \/ last l = Some x) -> consecutive (l ++ [x + 1]).
Proof.
  intros Hc Hl i a b Ha Hb.
  destruct (decide (S i < length l)%nat) as [Hlt | Hge].
  - rewrite lookup_app_l in Ha by lia. rewrite lookup_app_l in Hb by lia.
    eapply Hc; eassumption.
  - destruct (decide (S i = length l)) as [Heq | Hne].
    + rewrite lookup_app_l in Ha by lia.
      rewrite lookup_app_r in Hb by lia.
      replace (S i - length l)%nat with 0%nat in Hb by lia.
      simpl in Hb. inversion Hb; subst b.
      destruct Hl as [-> | Hl]; [simpl in Heq; lia|].
      rewrite last_lookup in Hl.
      replace (Nat.pred (length l)) with i in Hl by lia.
      congruence.
    + rewrite lookup_app_r in Hb by lia.
      destruct (S i - length l)%nat as [|k] eqn:E; [lia|].
      simpl in Hb. rewrite lookup_nil in Hb. discriminate.
Qed.

Lemma step_cases next st day :
  (next = Some (day + 1) /\
   step next st day = {| current_seq := current_seq st ++ [day];
                         seq_nums := seq_nums st;
                         seq_active := true |}) \/
  (next <> Some (day + 1) /\ seq_active st = true /\
   step next st day = {| current_seq := [];
                         seq_nums := seq_nums st ++ [current_seq st ++ [day]];
                         seq_active := false |}) \/
  (next <> Some (day + 1) /\ seq_active st = false /\ step next st day = st).
Proof.
  unfold step. destruct next as [n|].
  - destruct (n =? day + 1) eqn:E.
    + left. split; [f_equal; lia | reflexivity].
    + assert (Some n <> Some (day + 1)) by (intros H; inversion H; lia).
      destruct (seq_active st); auto.
  - destruct (seq_active st); [right; left | right; right]; auto.
Qed.

(** What the loop keeps true: finished runs are consecutive and have two
    elements or more; the open run is consecutive and, when the loop is in a
    run, ends one below the next element. *)
Lemma loop_runs l : forall st,
  Forall run_ok (seq_nums st) ->
  consecutive (current_seq st) ->
  (seq_active st = false -> current_seq st = []) ->
  (seq_active st = true ->
     exists x, last (current_seq st) = Some x /\ head l = Some (x + 1)) ->
  Forall run_ok (seq_nums (loop st l)).
Proof.
  induction l as [|day rest IH]; intros st Hacc Hcur Hoff Hon; [exact Hacc|].
  cbn [loop].
  assert (Hsnoc : consecutive (current_seq st ++ [day])).
  { destruct (seq_active st) eqn:Ea.
    - destruct (Hon eq_refl) as (x & Hx & Hh). simpl in Hh.
      inversion Hh; subst day.
      apply consecutive_snoc; [assumption | right; assumption].
    - rewrite (Hoff eq_refl). intros [|i] a b Ha Hb; simpl in *;
        rewrite ?lookup_nil in *; discriminate. }
  destruct (step_cases (head rest) st day)
    as [(Hn & ->) | [(Hn & Ea & ->) | (Hn & Ea & ->)]];
    apply IH; simpl; try assumption; try discriminate; try reflexivity.
  - intros _. exists day. rewrite last_snoc. auto.
  - apply Forall_app. split; [assumption|]. repeat constructor; [|assumption].
    rewrite length_app. simpl.
    destruct (Hon Ea) as (x & Hx & _).
    destruct (current_seq st); [discriminate | simpl; lia].
  - intros H. congruence.
Qed.

(** X1. Every run reported by [__get_seqs_from_list] has at least two
    elements and each of its elements is one more than the element before. *)
Theorem get_seqs_runs_consecutive nums :
  Forall run_ok (__get_seqs_from_list nums).
Proof.
  rewrite get_seqs_loop. apply loop_runs; simpl.
  - constructor.
  - intros i a b Ha. rewrite lookup_nil in Ha. discriminate.
  - reflexivity.
  - discriminate.
Qed.

Lemma loop_prefix l : forall st,
  exists more, seq_nums (loop st l) = seq_nums st ++ more.
Proof.
  induction l as [|day rest IH]; intros st.
  - exists []. rewrite app_nil_r. reflexivity.
  - cbn [loop].
    destruct (IH (step (head rest) st day)) as [more Hm]. rewrite Hm.
    destruct (step_cases (head rest) st day)
      as [(_ & ->) | [(_ & _ & ->) | (_ & _ & ->)]]; simpl.
    + eauto.
    + rewrite <- app_assoc. eauto.
    + eauto.
Qed.

Lemma loop_sublist l : forall st,
  exists t, concat (seq_nums (loop st l)) = concat (seq_nums st) ++ t /\
            t `sublist_of` current_seq st ++ l.
Proof.
  induction l as [|day rest IH]; intros st.
  - exists []. rewrite app_nil_r. split; [reflexivity | apply sublist_nil_l].
  - cbn [loop].
    destruct (IH (step (head rest) st day)) as (t & Ht & Hsub). rewrite Ht.
    destruct (step_cases (head rest) st day)
      as [(_ & E) | [(_ & _ & E) | (_ & _ & E)]];
      rewrite E in *; simpl in *.
    + exists t. split; [reflexivity|]. rewrite <- app_assoc in Hsub. exact Hsub.
    + exists ((current_seq st ++ [day]) ++ t). split.
      * rewrite concat_app. simpl. rewrite app_nil_r, <- !app_assoc. reflexivity.
      * rewrite <- app_assoc. apply sublist_app; [reflexivity|].
        simpl. apply sublist_skip. exact Hsub.
    + exists t. split; [reflexivity|].
      apply sublist_app_r in Hsub as (t1 & t2 & -> & H1 & H2).
      apply sublist_app; [exact H1|]. apply sublist_cons. exact H2.
Qed.

(** X2. The runs, one after the other, are a sub-sequence of the input:
    nothing is invented, repeated or reordered. *)
Theorem get_seqs_sublist nums :
  concat (__get_seqs_from_list nums) `sublist_of` nums.
Proof.
  rewrite get_seqs_loop.
  destruct (loop_sublist nums init) as (t & -> & Hsub). exact Hsub.
Qed.

(** Once the loop is in a run, or the next element continues the current
    one, the element being read ends up in a reported run right after the
    open run. *)
Lemma loop_continues rest : forall st b,
  seq_active st = true \/ head rest = Some (b + 1) ->
  exists run suffix,
    run ∈ seq_nums (loop st (b :: rest)) /\
    run = current_seq st ++ b :: suffix.
Proof.
  induction rest as [|n rest IH]; intros st b Hor; cbn [loop].
  - destruct Hor as [Ea | Hh]; [|discriminate].
    destruct (step_cases (head []) st b)
      as [(Hn & _) | [(_ & _ & ->) | (_ & Ef & _)]];
      [discriminate | | congruence].
    exists (current_seq st ++ [b]), []. split; [|reflexivity].
    simpl. apply elem_of_app. right. apply list_elem_of_singleton. reflexivity.
  - destruct (step_cases (head (n :: rest)) st b)
      as [(Hn & E) | [(Hn & Ea & E) | (Hn & Ef & E)]].
    + rewrite E.
      destruct (IH {| current_seq := current_seq st ++ [b];
                      seq_nums := seq_nums st; seq_active := true |} n)
        as (run & suffix & Hin & Hrun); [left; reflexivity|].
      exists run, (n :: suffix). split; [exact Hin|].
      rewrite Hrun. simpl. rewrite <- app_assoc. reflexivity.
    + rewrite E.
      destruct (loop_prefix (n :: rest)
                  {| current_seq := [];
                     seq_nums := seq_nums st ++ [current_seq st ++ [b]];
                     seq_active := false |}) as [more Hm].
      exists (current_seq st ++ [b]), []. split; [|reflexivity].
      cbn [loop] in Hm. rewrite Hm. simpl.
      apply elem_of_app. left. apply elem_of_app. right.
      apply list_elem_of_singleton. reflexivity.
    + destruct Hor as [Ea | Hh]; congruence.
Qed.

Lemma loop_covers_steps l : forall st a,
  has_step a l ->
  exists run, run ∈ seq_nums (loop st l) /\ has_step a run.
Proof.
  induction l as [|x l IH]; intros st a (i & Ha & Hb).
  - rewrite lookup_nil in Ha. discriminate.
  - destruct i as [|i].
    + simpl in Ha, Hb. inversion Ha; subst x.
      destruct l as [|b rest]; [discriminate|].
      simpl in Hb. inversion Hb; subst b.
      cbn [loop].
      destruct (step_cases (head ((a + 1) :: rest)) st a)
        as [(_ & E) | [(Hn & _) | (Hn & _)]];
        [|simpl in Hn; congruence..].
      rewrite E.
      destruct (loop_continues rest
                  {| current_seq := current_seq st ++ [a];
                     seq_nums := seq_nums st; seq_active := true |} (a + 1))
        as (run & suffix & Hin & Hrun); [left; reflexivity|].
      exists run. split; [exact Hin|].
      exists (length (current_seq st)). rewrite Hrun. simpl.
      rewrite <- app_assoc. simpl. split.
      * rewrite lookup_app_r by lia.
        replace (length (current_seq st) - length (current_seq st))%nat
          with 0%nat by lia. reflexivity.
      * rewrite lookup_app_r by lia.
        replace (S (length (current_seq st)) - length (current_seq st))%nat
          with 1%nat by lia. reflexivity.
    + cbn [loop]. apply IH. exists i. simpl in Ha, Hb. auto.
Qed.

(** X3. Every place where an element is followed by its successor lies
    inside one reported run. *)
Theorem get_seqs_covers_steps nums a :
  has_step a nums ->
  exists run, run ∈ __get_seqs_from_list nums /\ has_step a run.
Proof.
  intros H. rewrite get_seqs_loop. apply loop_covers_steps, H.
Qed.

Lemma loop_idle l : forall st,
  (forall a, ~ has_step a l) -> seq_active st = false -> loop st l = st.
Proof.
  induction l as [|day rest IH]; intros st Hno Ef; [reflexivity|].
  cbn [loop].
  destruct (step_cases (head rest) st day)
    as [(Hn & _) | [(_ & Ea & _) | (_ & _ & ->)]].
  - exfalso. apply (Hno day). exists 0%nat. simpl.
    destruct rest; simpl in *; [discriminate|]. auto.
  - congruence.
  - apply IH; [|exact Ef].
    intros a (i & Ha & Hb). apply (Hno a). exists (S i). auto.
Qed.

(** X4. No run is reported exactly when no element of the input is
    followed by its successor. *)
Theorem get_seqs_empty_iff nums :
  __get_seqs_from_list nums = [] <-> forall a, ~ has_step a nums.
Proof.
  split.
  - intros E a Hs. rewrite get_seqs_loop in E.
    destruct (loop_covers_steps nums init a Hs) as (run & Hin & _).
    rewrite E in Hin. apply not_elem_of_nil in Hin. exact Hin.
  - intros Hno. rewrite get_seqs_loop.
    rewrite (loop_idle nums init Hno eq_refl). reflexivity.
Qed.

End SeqsRuns.

Lemma get_seqs_covers_steps_witness :
  exists run, run ∈ Seqs.__get_seqs_from_list [3; 7; 8; 9; 12] /\
              SeqsLoop.has_step 8 run.
Proof.
  apply (get_seqs_covers_steps [3; 7; 8; 9; 12] 8).
  exists 2%nat. split; reflexivity.
Defined.

(** ** Language codes *)

Section LangFacts.
Import Lang.

Lemma split_on_go_nonempty sep s : forall w, split_on_go sep w s <> [].
Proof.
  induction s as [|c s IH]; intros w; simpl; [discriminate|].
  destruct (Ascii.eqb c sep); [discriminate | apply IH].
Qed.

Lemma lookup_values key code :
  lookup !! key = Some code -> code ∈ ["se"; "cz"; "kr"; "la"; "ua"].
Proof.
  intros H. apply elem_of_list_to_map_2 in H.
  apply (list_elem_of_fmap_2 snd) in H. exact H.
Qed.

Lemma supported_owmapi_api x : x ∈ owmsupported_owmapi -> x ∈ owmsupported.
Proof.
  unfold owmsupported_owmapi, owmsupported. intros H.
  repeat (apply elem_of_cons in H as [-> | H];
          [repeat (first [apply list_elem_of_here | apply list_elem_of_further])|]).
  apply not_elem_of_nil in H. destruct H.
Qed.

Lemma supported_api_owmapi x :
  x <> "da" -> x ∈ owmsupported -> x ∈ owmsupported_owmapi.
Proof.
  unfold owmsupported_owmapi, owmsupported. intros Hda H.
  repeat (apply elem_of_cons in H as [-> | H];
          [first [congruence
                 | repeat (first [apply list_elem_of_here | apply list_elem_of_further])]|]).
  apply not_elem_of_nil in H. destruct H.
Qed.

(** X5. Whatever the locale string, both versions of [get_language] answer
    with a code from the OWM list of [source/api.py], or with one of the two
    Chinese codes: never with the raw input. *)
Theorem get_language_supported lang :
  get_language lang ∈ owmsupported ++ ["zh_zn"; "zh_tw"] /\
  get_language_owmapi lang ∈ owmsupported ++ ["zh_zn"; "zh_tw"].
Proof.
  assert (Hen : "en" ∈ owmsupported ++ ["zh_zn"; "zh_tw"]).
  { apply elem_of_app. left. unfold owmsupported.
    repeat (first [apply list_elem_of_here | apply list_elem_of_further]). }
  assert (Hlk : forall key code, lookup !! key = Some code ->
                  code ∈ owmsupported ++ ["zh_zn"; "zh_tw"]).
  { intros key code H. apply lookup_values in H. apply elem_of_app. left.
    unfold owmsupported.
    repeat (apply elem_of_cons in H as [-> | H];
            [repeat (first [apply list_elem_of_here | apply list_elem_of_further])|]).
    apply not_elem_of_nil in H. destruct H. }
  unfold get_language, get_language_owmapi.
  destruct (decide (lang = "zh-zn" \/ lang = "zh_zn")).
  { split; apply elem_of_app; right;
      repeat (first [apply list_elem_of_here | apply list_elem_of_further]). }
  destruct (decide (lang = "zh-tw" \/ lang = "zh_tw")).
  { split; apply elem_of_app; right;
      repeat (first [apply list_elem_of_here | apply list_elem_of_further]). }
  set (parts := split_on "-"%char (Py.lower lang)).
  destruct (lookup !! part 0 parts) as [code|] eqn:El.
  { split; eapply Hlk; exact El. }
  split.
  - destruct (bool_decide (part 0 parts ∈ owmsupported)) eqn:E0.
    + apply bool_decide_eq_true in E0. apply elem_of_app. left. exact E0.
    + destruct (length parts =? 2)%nat; cbn [andb]; [|exact Hen].
      destruct (bool_decide (part 1 parts ∈ owmsupported)) eqn:E1; [|exact Hen].
      apply bool_decide_eq_true in E1. apply elem_of_app. left. exact E1.
  - cbv zeta.
    destruct (length parts =? 2)%nat.
    + destruct (bool_decide (part 1 parts ∈ owmsupported_owmapi)) eqn:E1.
      * apply bool_decide_eq_true in E1. apply elem_of_app. left.
        apply supported_owmapi_api, E1.
      * destruct (bool_decide (part 0 parts ∈ owmsupported_owmapi)) eqn:E0;
          [|exact Hen].
        apply bool_decide_eq_true in E0. apply elem_of_app. left.
        apply supported_owmapi_api, E0.
    + destruct (bool_decide (part 0 parts ∈ owmsupported_owmapi)) eqn:E0;
        [|exact Hen].
      apply bool_decide_eq_true in E0. apply elem_of_app. left.
      apply supported_owmapi_api, E0.
Qed.

(** X6. The two versions disagree on a locale whose language and region
    parts are both OWM codes: [source/api.py] answers with the language,
    [owmapi.py] with the region (so Canadian French is answered in
    Catalan there). *)
Theorem get_language_region_override lang l0 l1 :
  ~ (lang = "zh-zn" \/ lang = "zh_zn") ->
  ~ (lang = "zh-tw" \/ lang = "zh_tw") ->
  split_on "-"%char (Py.lower lang) = [l0; l1] ->
  lookup !! l0 = None ->
  l0 ∈ owmsupported_owmapi -> l1 ∈ owmsupported_owmapi ->
  get_language lang = l0 /\ get_language_owmapi lang = l1.
Proof.
  intros Hzn Htw Hsplit Hl H0 H1.
  unfold get_language, get_language_owmapi.
  destruct (decide (lang = "zh-zn" \/ lang = "zh_zn")); [tauto|].
  destruct (decide (lang = "zh-tw" \/ lang = "zh_tw")); [tauto|].
  rewrite Hsplit.
  change (part 0 [l0; l1]) with l0. change (part 1 [l0; l1]) with l1.
  change (length [l0; l1] =? 2)%nat with true.
  rewrite Hl. split.
  - rewrite bool_decide_eq_true_2 by (apply supported_owmapi_api, H0).
    reflexivity.
  - rewrite (bool_decide_eq_true_2 _ H1). reflexivity.
Qed.

(** X7. Apart from that override and from Danish, which only
    [source/api.py] lists, the two versions give the same code. *)
Theorem get_language_versions_agree lang :
  let parts := split_on "-"%char (Py.lower lang) in
  part 0 parts <> "da" -> part 1 parts <> "da" ->
  (length parts = 2%nat -> part 0 parts ∈ owmsupported ->
   part 1 parts ∈ owmsupported -> part 1 parts = part 0 parts) ->
  get_language lang = get_language_owmapi lang.
Proof.
  intros parts Hda0 Hda1 Hsame.
  unfold get_language, get_language_owmapi. fold parts.
  destruct (decide (lang = "zh-zn" \/ lang = "zh_zn")); [reflexivity|].
  destruct (decide (lang = "zh-tw" \/ lang = "zh_tw")); [reflexivity|].
  destruct (lookup !! part 0 parts); [reflexivity|]. cbv zeta.
  assert (E0 : bool_decide (part 0 parts ∈ owmsupported_owmapi)
               = bool_decide (part 0 parts ∈ owmsupported)).
  { apply bool_decide_ext. split;
      [apply supported_owmapi_api | apply supported_api_owmapi, Hda0]. }
  assert (E1 : bool_decide (part 1 parts ∈ owmsupported_owmapi)
               = bool_decide (part 1 parts ∈ owmsupported)).
  { apply bool_decide_ext. split;
      [apply supported_owmapi_api | apply supported_api_owmapi, Hda1]. }
  rewrite E0, E1.
  destruct (length parts =? 2)%nat eqn:El.
  - apply Nat.eqb_eq in El.
    destruct (bool_decide (part 0 parts ∈ owmsupported)) eqn:B0;
      destruct (bool_decide (part 1 parts ∈ owmsupported)) eqn:B1;
      cbn [andb]; try reflexivity.
    apply bool_decide_eq_true in B0, B1. symmetry. apply Hsame; assumption.
  - rewrite andb_false_l.
    destruct (bool_decide (part 0 parts ∈ owmsupported)); reflexivity.
Qed.

End LangFacts.

Lemma get_language_region_override_witness :
  Lang.get_language "fr-CA" = "fr" /\ Lang.get_language_owmapi "fr-CA" = "ca".
Proof.
  apply (get_language_region_override "fr-CA" "fr" "ca").
  - intros [H | H]; discriminate.
  - intros [H | H]; discriminate.
  - reflexivity.
  - reflexivity.
  - unfold Lang.owmsupported_owmapi.
    repeat (first [apply list_elem_of_here | apply list_elem_of_further]).
  - unfold Lang.owmsupported_owmapi.
    repeat (first [apply list_elem_of_here | apply list_elem_of_further]).
Defined.

Lemma get_language_versions_agree_witness :
  Lang.get_language "sv-SE" = Lang.get_language_owmapi "sv-SE".
Proof.
  apply (get_language_versions_agree "sv-SE").
  - vm_compute. discriminate.
  - vm_compute. discriminate.
  - vm_compute. intros _ H. exfalso.
    repeat (apply elem_of_cons in H as [H | H]; [discriminate|]).
    apply not_elem_of_nil in H. exact H.
Defined.

(** ** The response cache *)

Section CacheFacts.
Import Skill Api Cache.
Context {K : Type} `{Countable K} {R : Type}.
Variable as_str : R -> option string.

Lemma fetch_and_store_cases (fetch : K * option Z -> response R) (now : Q) (cache : gmap (K * option Z) (Q * R)) data :
  (exists status_code,
     fetch data = Fails status_code /\
     fetch_and_store as_str fetch now cache data
     = (Raised (HTTPError status_code), cache, [data])) \/
  (exists resp,
     fetch data = Resp resp /\ not_found as_str resp = true /\
     fetch_and_store as_str fetch now cache data
     = (Raised (HTTPError 404), cache, [data])) \/
  (exists resp,
     fetch data = Resp resp /\ not_found as_str resp = false /\
     fetch_and_store as_str fetch now cache data
     = (Return resp, <[data := (now, resp)]> cache, [data])).
Proof.
  unfold fetch_and_store. destruct (fetch data) as [resp | code].
  - destruct (not_found as_str resp) eqn:E; eauto 8.
  - eauto 8.
Qed.

(** The two ways a request ends: served from an entry that is not older
    than 15 minutes, or sent to the provider. *)
Lemma request_cases (fetch : K * option Z -> response R) (now : Q) (cache : gmap (K * option Z) (Q * R)) data :
  (exists fetched resp,
     (fetched + 900 >= now)%Q /\
     request as_str fetch now cache data = (Return resp, cache, [])) \/
  request as_str fetch now cache data = fetch_and_store as_str fetch now cache data.
Proof.
  unfold request.
  match goal with
  | |- context [match ?c with Some _ => _ | None => _ end = _] =>
      destruct c as [[fetched resp]|]
  end; [|right; reflexivity].
  destruct (Wind.Qlt_bool _ now) eqn:E; [right; reflexivity|].
  left. exists fetched, resp. split; [|reflexivity].
  unfold Wind.Qlt_bool in E. apply negb_false_iff, Qle_bool_iff in E.
  exact E.
Qed.

(** X8. An answer fetched from the provider is served again, without
    asking the provider, to the same request made up to 15 minutes
    later. *)
Theorem request_repeat_is_served (fetch fetch' : K * option Z -> response R) (now now' : Q)
    (cache cache' : gmap (K * option Z) (Q * R)) data resp :
  request as_str fetch now cache data = (Return resp, cache', [data]) ->
  (now' <= now + 900)%Q ->
  request as_str fetch' now' cache' data = (Return resp, cache', []).
Proof.
  intros Hreq Hnow.
  assert (Hc : cache' = <[data := (now, resp)]> cache).
  { destruct (request_cases fetch now cache data)
      as [(f & r & _ & E) | E]; rewrite E in Hreq; [discriminate|].
    destruct (fetch_and_store_cases fetch now cache data)
      as [(c & _ & E') | [(r & _ & _ & E') | (r & _ & _ & E')]];
      rewrite E' in Hreq; inversion Hreq; reflexivity. }
  unfold request. rewrite Hc, lookup_insert_eq.
  assert (Hsame : match snd data, Some (now, resp) with
                  | Some cnt, None =>
                      if decide (cnt = 0) then Some (now, resp)
                      else probe (Z.to_nat (16 - cnt)) (fst data) cnt
                             (<[data := (now, resp)]> cache)
                  | _, _ => Some (now, resp)
                  end = Some (now, resp)).
  { destruct (snd data); reflexivity. }
  destruct (snd data); cbn [snd];
    (replace (Wind.Qlt_bool (now + inject_Z (15 * MINUTES)) now') with false;
     [reflexivity|]);
    symmetry; unfold Wind.Qlt_bool; apply negb_false_iff, Qle_bool_iff;
    exact Hnow.
Qed.

(** X9. A failed request changes nothing in the cache: an [HTTPError] of
    the provider is passed on, a text carrying the not-found mark becomes an
    [HTTPError] 404, and in both cases the provider was asked exactly
    once. *)
Theorem request_failure_not_cached (fetch : K * option Z -> response R) (now : Q)
    (cache cache' : gmap (K * option Z) (Q * R)) data e trace :
  request as_str fetch now cache data = (Raised e, cache', trace) ->
  cache' = cache /\ trace = [data] /\
  (fetch data = Fails match e with
                      | HTTPError status_code => status_code
                      | LocationNotFoundError => 0
                      end /\ e <> LocationNotFoundError \/
   exists resp, fetch data = Resp resp /\
                not_found as_str resp = true /\ e = HTTPError 404).
Proof.
  intros Hreq.
  destruct (request_cases fetch now cache data)
    as [(f & r & _ & E) | E]; rewrite E in Hreq; [discriminate|].
  destruct (fetch_and_store_cases fetch now cache data)
    as [(c & Hf & E') | [(r & Hf & Hm & E') | (r & _ & _ & E')]];
    rewrite E' in Hreq; inversion Hreq; subst.
  - repeat split; try reflexivity. left. split; [exact Hf | discriminate].
  - repeat split; try reflexivity. right. eauto.
Qed.

Lemma probe_finds n : forall what cnt (k : nat)
    (cache : gmap (K * option Z) (Q * R)) entry,
  (k < n)%nat ->
  (forall j : nat, (j < k)%nat ->
     cache !! (what, Some (cnt + 1 + Z.of_nat j)) = None) ->
  cache !! (what, Some (cnt + 1 + Z.of_nat k)) = Some entry ->
  probe n what cnt cache = Some entry.
Proof.
  induction n as [|n IH]; intros what cnt k cache entry Hk Hmiss Hhit; [lia|].
  cbn [probe]. destruct k as [|k].
  - replace (cnt + 1 + Z.of_nat 0) with (cnt + 1) in Hhit by lia.
    rewrite Hhit. reflexivity.
  - pose proof (Hmiss 0%nat ltac:(lia)) as H0.
    replace (cnt + 1 + Z.of_nat 0) with (cnt + 1) in H0 by lia.
    rewrite H0. apply (IH what (cnt + 1) k); [lia | |].
    + intros j Hj. specialize (Hmiss (S j) ltac:(lia)).
      replace (cnt + 1 + 1 + Z.of_nat j) with (cnt + 1 + Z.of_nat (S j)) by lia.
      exact Hmiss.
    + replace (cnt + 1 + 1 + Z.of_nat k) with (cnt + 1 + Z.of_nat (S k)) by lia.
      exact Hhit.
Qed.

(** X10. A request for [cnt] days that has no entry of its own is served
    from the cached answer to the same request with the nearest larger
    count, up to 16, when that answer is not older than 15 minutes; the
    provider is not asked and the cache is left as it is. *)
Theorem request_served_from_larger_count (fetch : K * option Z -> response R) (now : Q)
    (cache : gmap (K * option Z) (Q * R)) what cnt cnt' fetched resp :
  0 < cnt -> cnt < cnt' -> cnt' <= 16 ->
  cache !! (what, Some cnt) = None ->
  (forall c, cnt < c < cnt' -> cache !! (what, Some c) = None) ->
  cache !! (what, Some cnt') = Some (fetched, resp) ->
  (now <= fetched + 900)%Q ->
  request as_str fetch now cache (what, Some cnt) = (Return resp, cache, []).
Proof.
  intros H0 Hlt H16 Hown Hbetween Hhit Hfresh.
  unfold request. cbn [fst snd]. rewrite Hown.
  destruct (decide (cnt = 0)) as [->|_]; [lia|].
  rewrite (probe_finds (Z.to_nat (16 - cnt)) what cnt
             (Z.to_nat (cnt' - cnt - 1)) cache (fetched, resp)).
  - replace (Wind.Qlt_bool (fetched + inject_Z (15 * MINUTES)) now) with false;
      [reflexivity|].
    symmetry. unfold Wind.Qlt_bool. apply negb_false_iff, Qle_bool_iff.
    exact Hfresh.
  - lia.
  - intros j Hj. apply Hbetween. lia.
  - replace (cnt + 1 + Z.of_nat (Z.to_nat (cnt' - cnt - 1))) with cnt' by lia.
    exact Hhit.
Qed.

(** X11. If no cached text carries the not-found mark, none does after a
    request, and no returned text carries it either. *)
Theorem request_keeps_clean (fetch : K * option Z -> response R) (now : Q)
    (cache cache' : gmap (K * option Z) (Q * R)) data out trace :
  clean as_str cache ->
  request as_str fetch now cache data = (out, cache', trace) ->
  clean as_str cache' /\
  (forall resp, out = Return resp -> not_found as_str resp = false).
Proof.
  intros Hclean Hreq.
  assert (Hprobe : forall n what cnt entry,
            probe n what cnt cache = Some entry ->
            not_found as_str (snd entry) = false).
  { induction n as [|n IH]; intros what cnt entry Hp; [discriminate|].
    cbn [probe] in Hp.
    destruct (cache !! (what, Some (cnt + 1))) as [[f r]|] eqn:E.
    - inversion Hp; subst. eapply Hclean. exact E.
    - eapply IH. exact Hp. }
  assert (Hstore : fetch_and_store as_str fetch now cache data = (out, cache', trace) ->
            clean as_str cache' /\
            (forall resp, out = Return resp ->
               not_found as_str resp = false)).
  { intros Hfs.
    destruct (fetch_and_store_cases fetch now cache data)
      as [(c & _ & E') | [(r & _ & _ & E') | (r & _ & Hm & E')]];
      rewrite E' in Hfs; inversion Hfs; subst.
    - split; [exact Hclean | discriminate].
    - split; [exact Hclean | discriminate].
    - split.
      + intros key f r' Hl.
        destruct (decide (data = key)) as [->|Hne].
        * rewrite lookup_insert_eq in Hl. inversion Hl; subst. exact Hm.
        * rewrite lookup_insert_ne in Hl by exact Hne. eapply Hclean. exact Hl.
      + intros resp Hr. inversion Hr; subst. exact Hm. }
  revert Hreq. unfold request.
  match goal with
  | |- context [match ?c with Some _ => _ | None => _ end = _] =>
      destruct c as [[fetched resp]|] eqn:Ec
  end; [|exact Hstore].
  destruct (Wind.Qlt_bool _ now); [exact Hstore|].
  intros Hreq. injection Hreq as Ho Hc Ht. subst out cache' trace.
  split; [exact Hclean|].
  intros r Hr. injection Hr as Hr. subst r.
  destruct data as [what [cnt|]]; cbn [fst snd] in Ec.
  - destruct (cache !! (what, Some cnt)) as [[f r']|] eqn:El.
    + inversion Ec; subst. eapply Hclean. exact El.
    + destruct (decide (cnt = 0)); [discriminate|].
      apply (Hprobe _ _ _ _ Ec).
  - eapply Hclean. exact Ec.
Qed.

End CacheFacts.

Lemma request_repeat_is_served_witness :
  let data : string * option Z := ("/weather?q=paris", None) in
  Cache.request Some (fun _ => Api.Fails 500) 1000 (<[data := (100%Q, "sunny")]> ∅) data
  = (Api.Return "sunny", <[data := (100%Q, "sunny")]> ∅, []).
Proof.
  intros data.
  apply (request_repeat_is_served Some (fun _ => Api.Resp "sunny") _ 100 1000 ∅).
  - vm_compute. reflexivity.
  - unfold Qle. simpl. lia.
Defined.

Lemma request_failure_not_cached_witness :
  let data : string * option Z := ("/weather?q=atlantis", None) in
  let fetch := fun _ : string * option Z =>
                 Api.Resp (Cache.NOT_FOUND_MARK +:+ ",message") in
  snd (fst (Cache.request Some fetch 100 ∅ data)) = ∅.
Proof.
  intros data fetch.
  destruct (request_failure_not_cached Some fetch 100 ∅
              (snd (fst (Cache.request Some fetch 100 ∅ data))) data
              (Skill.HTTPError 404) [data]) as (Hc & _).
  - vm_compute. reflexivity.
  - exact Hc.
Defined.

Lemma request_served_from_larger_count_witness :
  let cache : gmap (string * option Z) (Q * string) :=
    {[ ("/forecast/daily?q=paris", Some 14) := (50%Q, "two weeks") ]} in
  Cache.request Some (fun _ => Api.Fails 500) 600 cache
    ("/forecast/daily?q=paris", Some 5)
  = (Api.Return "two weeks", cache, []).
Proof.
  intros cache.
  apply (request_served_from_larger_count Some _ 600 cache
           "/forecast/daily?q=paris" 5 14 50 "two weeks"); try lia.
  - reflexivity.
  - intros c Hc. apply lookup_singleton_ne. intros E. inversion E. lia.
  - reflexivity.
  - unfold Qle. simpl. lia.
Defined.

Lemma request_keeps_clean_witness :
  Cache.clean Some (<[("/weather?q=paris", None) := (100%Q, "sunny")]>
                 (∅ : gmap (string * option Z) (Q * string))) /\
  Cache.not_found Some "sunny" = false.
Proof.
  destruct (request_keeps_clean Some
              (fun _ : string * option Z => Api.Resp "sunny") 100 ∅
              (<[("/weather?q=paris", None) := (100%Q, "sunny")]> ∅)
              ("/weather?q=paris", None) (Api.Return "sunny")
              [("/weather?q=paris", None)]) as (Hc & Hr).
  - intros key fetched resp Hl. rewrite lookup_empty in Hl. discriminate.
  - vm_compute. reflexivity.
  - split; [exact Hc | apply Hr; reflexivity].
Defined.

(** ** Lookups by place *)

Section PlacesFacts.
Import Skill Api Places.
Context {Data Observation Forecast : Type}.
Variable parse_JSON : Data -> Observation.
Variable to_forecast : Data -> string -> option Forecast.

Lemma weather_at_location_return
    (request : nat -> string -> string -> option Z -> response Data) fuel :
  forall n name obs accepted retries,
    weather_at_location parse_JSON request fuel n name
    = Some (Return (obs, accepted), retries) ->
    accepted <> "" /\
    exists data, request retries "/weather" accepted None = Resp data /\
                 obs = parse_JSON data.
Proof.
  induction fuel as [|fuel IH]; intros n name obs accepted retries Hrun;
    [discriminate|].
  simpl in Hrun. destruct (decide (name = "")) as [|Hne]; [discriminate|].
  destruct (request n "/weather" name None) as [d | code] eqn:Er.
  - inversion Hrun; subst. split; [exact Hne|]. eauto.
  - destruct (code =? 404); [|discriminate]. eapply IH. exact Hrun.
Qed.

Lemma daily_loop_return
    (request : nat -> string -> string -> option Z -> response Data)
    (tf : Data -> option Forecast) fuel :
  forall n orig name limit translations forecast translations' retries,
    daily_loop tf request fuel n orig name limit translations
    = Some (Return forecast, translations', retries) ->
    exists accepted data,
      accepted <> "" /\
      request retries "/forecast/daily" accepted limit = Resp data /\
      forecast = tf data /\
      translations' = <[orig := accepted]> translations.
Proof.
  induction fuel as [|fuel IH];
    intros n orig name limit translations forecast translations' retries Hrun;
    [discriminate|].
  simpl in Hrun. destruct (decide (name = "")) as [|Hne]; [discriminate|].
  destruct (request n "/forecast/daily" name limit) as [d | code] eqn:Er.
  - inversion Hrun; subst. exists name, d. auto.
  - destruct (code =? 404); eapply IH; exact Hrun.
Qed.


(** X13. [weather_at_place] learns: when a lookup by a name without
    translation succeeds (possibly after shortening the name), the name is
    translated to the accepted name, which is not empty, and the same
    lookup repeated against a provider that answers as before needs no
    retry and gives the same observation. *)
Theorem weather_at_place_learns
    (request : nat -> string -> string -> option Z -> response Data)
    (request_at : string -> Q -> Q -> option Z -> response Data)
    fuel name lat lon translations obs translations' :
  stationary request ->
  truthy lat = false \/ truthy lon = false ->
  translations !! name = None ->
  weather_at_place parse_JSON request request_at fuel name lat lon translations
  = Some (Return obs, translations') ->
  exists accepted,
    accepted <> "" /\
    translations' = <[name := accepted]> translations /\
    forall fuel', (0 < fuel')%nat ->
      weather_at_place parse_JSON request request_at fuel' name lat lon translations'
      = Some (Return obs, <[accepted := accepted]> translations') /\
      weather_at_location parse_JSON request fuel' 0 accepted
      = Some (Return (obs, accepted), 0%nat).
Proof.
  intros Hstat Hz Hnone Hrun.
  assert (E : truthy lat && truthy lon = false).
  { destruct Hz as [-> | ->]; [reflexivity | apply andb_false_r]. }
  unfold weather_at_place in *. rewrite E in *. rewrite Hnone in Hrun.
  destruct (weather_at_location parse_JSON request fuel 0 name)
    as [[[[obs0 accepted] | e] retries]|] eqn:Ew; try discriminate.
  inversion Hrun; subst obs0 translations'. clear Hrun.
  destruct (weather_at_location_return request fuel 0 name obs accepted retries Ew)
    as (Hne & data & Hreq & Hobs).
  rewrite Hstat in Hreq.
  exists accepted. split; [exact Hne|]. split; [reflexivity|].
  intros [|fuel'] Hf; [lia|].
  assert (Hw : weather_at_location parse_JSON request (S fuel') 0 accepted
               = Some (Return (obs, accepted), 0%nat)).
  { simpl. destruct (decide (accepted = "")); [congruence|].
    rewrite Hreq, Hobs. reflexivity. }
  split; [|exact Hw].
  rewrite lookup_insert_eq. rewrite Hw. reflexivity.
Qed.

(** X14. [three_hours_forecast] does not shorten names itself, but it uses
    what [weather_at_place] learned: after that lookup succeeded for a name,
    the forecast request is sent for the accepted name. *)
Theorem three_hours_forecast_uses_learned_name
    (request : nat -> string -> string -> option Z -> response Data)
    (request_at : string -> Q -> Q -> option Z -> response Data)
    fuel name lat lon translations obs translations' :
  truthy lat = false \/ truthy lon = false ->
  translations !! name = None ->
  weather_at_place parse_JSON request request_at fuel name lat lon translations
  = Some (Return obs, translations') ->
  exists accepted,
    translations' !! name = Some accepted /\
    three_hours_forecast to_forecast request request_at name lat lon translations'
    = match request 0%nat "/forecast" accepted None with
      | Resp data => Return (to_forecast data "3h")
      | Fails status_code => Raised (HTTPError status_code)
      end /\
    three_hours_forecast to_forecast request request_at name lat lon translations
    = match request 0%nat "/forecast" name None with
      | Resp data => Return (to_forecast data "3h")
      | Fails status_code => Raised (HTTPError status_code)
      end.
Proof.
  intros Hz Hnone Hrun.
  assert (E : truthy lat && truthy lon = false).
  { destruct Hz as [-> | ->]; [reflexivity | apply andb_false_r]. }
  unfold weather_at_place, three_hours_forecast in *.
  rewrite E in *. rewrite Hnone in *.
  destruct (weather_at_location parse_JSON request fuel 0 name)
    as [[[[obs0 accepted] | e] retries]|] eqn:Ew; try discriminate.
  inversion Hrun; subst obs0 translations'. clear Hrun.
  exists accepted. rewrite lookup_insert_eq. auto.
Qed.

(** X15. [_daily_forecast_at_location] learns in the same way: after a
    lookup by a name without translation succeeded, the name is translated
    to the accepted name and the repeated lookup succeeds at the first
    request with the same forecast. *)
Theorem daily_forecast_learns
    (request : nat -> string -> string -> option Z -> response Data)
    (tf : Data -> option Forecast)
    fuel name limit translations forecast translations' retries :
  stationary request ->
  translations !! name = None ->
  _daily_forecast_at_location tf request fuel name limit translations
  = Some (Return forecast, translations', retries) ->
  exists accepted,
    accepted <> "" /\
    translations' = <[name := accepted]> translations /\
    forall fuel', (0 < fuel')%nat ->
      _daily_forecast_at_location tf request fuel' name limit translations'
      = Some (Return forecast, <[accepted := accepted]> translations', 0%nat).
Proof.
  intros Hstat Hnone Hrun.
  unfold _daily_forecast_at_location in *. rewrite Hnone in Hrun.
  destruct (daily_loop_return request tf fuel 0 name name limit translations
              forecast translations' retries Hrun)
    as (accepted & data & Hne & Hreq & Hf & Htr).
  rewrite Hstat in Hreq.
  exists accepted. split; [exact Hne|]. split; [exact Htr|].
  intros [|fuel'] Hfuel; [lia|].
  rewrite Htr, lookup_insert_eq. simpl.
  destruct (decide (accepted = "")); [congruence|].
  rewrite Hreq, Hf. reflexivity.
Qed.

(** X16. A provider that answers every request with one HTTP error other
    than 404 ends [weather_at_location] at once: the error is re-raised
    after no retry. [_daily_forecast_at_location] swallows the same error
    and asks again for the same name, so that no budget lets it end. *)
Theorem server_error_reraised_or_swallowed
    (request : nat -> string -> string -> option Z -> response Data)
    (tf : Data -> option Forecast)
    status_code name limit translations :
  status_code <> 404 -> name <> "" ->
  (forall t, translations !! name = Some t -> t <> "") ->
  (forall n path q cnt, request n path q cnt = Fails status_code) ->
  (forall fuel, (0 < fuel)%nat ->
     weather_at_location parse_JSON request fuel 0 name
     = Some (Raised (HTTPError status_code), 0%nat)) /\
  (forall fuel,
     _daily_forecast_at_location tf request fuel name limit translations
     = None).
Proof.
  intros Hc Hne Htr Hreq. split.
  - intros [|fuel] Hfuel; [lia|]. simpl.
    destruct (decide (name = "")); [congruence|]. rewrite Hreq.
    destruct (status_code =? 404) eqn:E; [lia | reflexivity].
  - intros fuel. unfold _daily_forecast_at_location.
    destruct (translations !! name) as [t|] eqn:Et.
    + apply (daily_loop_spins tf request status_code); auto.
    + apply (daily_loop_spins tf request status_code); auto.
Qed.

End PlacesFacts.


Lemma weather_at_place_learns_witness :
  let by_name := fun (_ : nat) (_ q : string) (_ : option Z) =>
                   if decide (q = "paris") then Api.Resp "rain" else Api.Fails 404 in
  let nowhere := fun (_ : string) (_ _ : Q) (_ : option Z) =>
                   @Api.Fails string 500 in
  exists accepted,
    accepted <> "" /\
    ({[ "paris texas" := "paris" ]} : gmap string string)
    = <[ "paris texas" := accepted ]> ∅ /\
    forall fuel', (0 < fuel')%nat ->
      Places.weather_at_place id by_name nowhere fuel' "paris texas" 0 0
        {[ "paris texas" := "paris" ]}
      = Some (Api.Return "rain",
              <[ accepted := accepted ]> {[ "paris texas" := "paris" ]}) /\
      Api.weather_at_location id by_name fuel' 0 accepted
      = Some (Api.Return ("rain", accepted), 0%nat).
Proof.
  intros by_name nowhere.
  apply (weather_at_place_learns id by_name nowhere 3 "paris texas" 0 0 ∅ "rain").
  - intros n path q cnt. reflexivity.
  - left. reflexivity.
  - reflexivity.
  - vm_compute. reflexivity.
Defined.

Lemma three_hours_forecast_uses_learned_name_witness :
  let by_name := fun (_ : nat) (_ q : string) (_ : option Z) =>
                   if decide (q = "paris") then Api.Resp "rain" else Api.Fails 404 in
  let nowhere := fun (_ : string) (_ _ : Q) (_ : option Z) =>
                   @Api.Fails string 500 in
  exists accepted,
    ({[ "paris texas" := "paris" ]} : gmap string string) !! "paris texas"
    = Some accepted /\
    Places.three_hours_forecast (fun d (_ : string) => Some d) by_name nowhere
      "paris texas" 0 0 {[ "paris texas" := "paris" ]}
    = match by_name 0%nat "/forecast" accepted None with
      | Api.Resp data => Api.Return (Some data)
      | Api.Fails status_code => Api.Raised (Skill.HTTPError status_code)
      end /\
    Places.three_hours_forecast (fun d (_ : string) => Some d) by_name nowhere
      "paris texas" 0 0 ∅
    = match by_name 0%nat "/forecast" "paris texas" None with
      | Api.Resp data => Api.Return (Some data)
      | Api.Fails status_code => Api.Raised (Skill.HTTPError status_code)
      end.
Proof.
  intros by_name nowhere.
  apply (three_hours_forecast_uses_learned_name id (fun d (_ : string) => Some d)
           by_name nowhere 3 "paris texas" 0 0 ∅ "rain").
  - left. reflexivity.
  - reflexivity.
  - vm_compute. reflexivity.
Defined.

Lemma daily_forecast_learns_witness :
  let by_name := fun (_ : nat) (_ q : string) (_ : option Z) =>
                   if decide (q = "paris") then Api.Resp "rain" else Api.Fails 404 in
  exists accepted,
    accepted <> "" /\
    ({[ "paris texas" := "paris" ]} : gmap string string)
    = <[ "paris texas" := accepted ]> ∅ /\
    forall fuel', (0 < fuel')%nat ->
      Api._daily_forecast_at_location Some by_name fuel' "paris texas" (Some 14)
        {[ "paris texas" := "paris" ]}
      = Some (Api.Return (Some "rain"),
              <[ accepted := accepted ]> {[ "paris texas" := "paris" ]}, 0%nat).
Proof.
  intros by_name.
  apply (daily_forecast_learns by_name Some 3 "paris texas" (Some 14) ∅
           (Some "rain") _ 1%nat).
  - intros n path q cnt. reflexivity.
  - reflexivity.
  - vm_compute. reflexivity.
Defined.

Lemma server_error_reraised_or_swallowed_witness :
  let failing := fun (_ : nat) (_ _ : string) (_ : option Z) =>
                   Api.Fails (D := string) 500 in
  Api.weather_at_location (fun d => d) failing 5 0 "london"
  = Some (Api.Raised (Skill.HTTPError 500), 0%nat) /\
  Api._daily_forecast_at_location (@Some string) failing 1000 "london"
    (Some 14) ∅ = None.
Proof.
  intros failing.
  destruct (server_error_reraised_or_swallowed (fun d : string => d) failing
              (@Some string) 500 "london" (Some 14) ∅) as (Hw & Hd).
  - lia.
  - discriminate.
  - intros t Ht. rewrite lookup_empty in Ht. discriminate.
  - intros n path q cnt. reflexivity.
  - split; [apply Hw; lia | apply Hd].
Defined.

(** ** Units of the configuration *)

Section ConfigFacts.
Import Config.

(** X17. A fresh configuration resolves the temperature unit to celsius,
    to fahrenheit, to nothing, or fails. It fails with [KeyError] exactly
    when the core configuration has no "system_unit", even if a stored
    setting alone would decide; it resolves to nothing exactly when the
    stored setting is neither unit (in any letter case): the system default
    is not used as a fallback then. *)
Theorem temperature_unit_outcomes core settings city state country :
  let r := fst (Config.temperature_unit
                  (Config.__init__ core settings city state country)) in
  (r = KeyError "system_unit" <-> core !! "system_unit" = None) /\
  (r = Ok None <->
     core !! "system_unit" <> None /\
     exists u, settings !! "units" = Some u /\
               Py.lower u <> FAHRENHEIT /\ Py.lower u <> CELSIUS) /\
  (r = KeyError "system_unit" \/ r = Ok None \/
   r = Ok (Some CELSIUS) \/ r = Ok (Some FAHRENHEIT)).
Proof.
  unfold Config.temperature_unit, Config.__init__. cbn [_temperature_unit
    Config.settings Config.core_config].
  destruct (core !! "system_unit") as [system|] eqn:Ec; cbn [fst].
  - destruct (settings !! "units") as [u|] eqn:Es.
    + destruct (decide (Py.lower u = FAHRENHEIT)) as [Hf|Hf];
        [|destruct (decide (Py.lower u = CELSIUS)) as [Hc|Hc]].
      * repeat split; try discriminate; auto.
        intros (_ & u' & Hu & Hnf & _). congruence.
      * repeat split; try discriminate; auto.
        intros (_ & u' & Hu & _ & Hnc). congruence.
      * repeat split; try discriminate; eauto.
    + destruct (decide (system = METRIC));
        repeat split; try discriminate; auto;
        intros (_ & u' & Hu & _); discriminate.
  - repeat split; try discriminate; auto.
    intros (Hn & _). congruence.
Qed.

(** X18. The speed unit never fails: it is meters per second when
    "system_unit" is exactly "metric" and miles per hour otherwise, also
    when "system_unit" is missing (where the temperature unit raises).
    Without a stored "units" setting the two units belong to the same
    system. *)
Theorem speed_unit_matches_temperature_unit core settings city state country :
  let c := Config.__init__ core settings city state country in
  (fst (Config.speed_unit c) = METERS_PER_SECOND <->
     core !! "system_unit" = Some METRIC) /\
  (fst (Config.speed_unit c) = MILES_PER_HOUR <->
     core !! "system_unit" <> Some METRIC) /\
  (core !! "system_unit" <> None -> settings !! "units" = None ->
   (fst (Config.temperature_unit c) = Ok (Some CELSIUS) <->
      fst (Config.speed_unit c) = METERS_PER_SECOND) /\
   (fst (Config.temperature_unit c) = Ok (Some FAHRENHEIT) <->
      fst (Config.speed_unit c) = MILES_PER_HOUR)).
Proof.
  unfold Config.temperature_unit, Config.speed_unit, Config.__init__.
  cbn [_temperature_unit _speed_unit Config.settings Config.core_config].
  destruct (core !! "system_unit") as [system|] eqn:Ec.
  - destruct (decide (system = METRIC)) as [->|Hne].
    + rewrite decide_True by reflexivity. cbn [fst].
      split; [tauto|]. split; [split; [discriminate | congruence]|].
      intros _ Hs. rewrite Hs. cbn [fst].
      split; split; intros; try reflexivity; discriminate.
    + rewrite decide_False by congruence. cbn [fst].
      split; [split; [discriminate | congruence]|].
      split; [split; [congruence | reflexivity]|].
      intros _ Hs. rewrite Hs. cbn [fst].
      split; split; intros; try reflexivity; discriminate.
  - rewrite decide_False by discriminate. cbn [fst].
    split; [split; discriminate|].
    split; [split; [discriminate | reflexivity]|].
    intros Hn. congruence.
Qed.

End ConfigFacts.

Lemma speed_unit_matches_temperature_unit_witness :
  let c := Config.__init__ {[ "system_unit" := "imperial" ]} ∅
             "Lawrence" "Kansas" "United States" in
  fst (Config.temperature_unit c) = Config.Ok (Some Config.FAHRENHEIT).
Proof.
  intros c.
  destruct (speed_unit_matches_temperature_unit
              {[ "system_unit" := "imperial" ]} ∅
              "Lawrence" "Kansas" "United States") as (_ & _ & H).
  destruct H as (_ & Hf).
  - vm_compute. discriminate.
  - reflexivity.
  - apply Hf. vm_compute. reflexivity.
Defined.

(** ** The reported wind speed *)

From Stdlib Require Import Lqa DecimalPos.

Lemma round_within_half x :
  (inject_Z (Py.round x) - x <= 1 # 2)%Q /\ (x - inject_Z (Py.round x) <= 1 # 2)%Q.
Proof.
  unfold Py.round.
  pose proof (Qfloor_le x) as Hlo. pose proof (Qlt_floor x) as Hhi.
  rewrite inject_Z_plus in Hhi. change (inject_Z 1) with 1%Q in Hhi.
  destruct (x - inject_Z (Qfloor x) ?= 1 # 2)%Q eqn:E.
  - apply Qeq_alt in E.
    destruct (Z.even (Qfloor x)).
    + split; lra.
    + rewrite inject_Z_plus. change (inject_Z 1) with 1%Q. split; lra.
  - apply Qlt_alt in E. split; lra.
  - apply Qgt_alt in E. rewrite inject_Z_plus. change (inject_Z 1) with 1%Q.
    split; lra.
Qed.


Section WindSpeedFacts.
Import Config Wind WindSpeed.

Lemma speed_inv_new payload unit : speed_inv payload unit (__init__ payload unit).
Proof.
  unfold speed_inv, __init__; simpl.
  destruct (payload !! "speed"); auto.
Qed.

Lemma speed_inv_read payload unit a w :
  speed_inv payload unit w -> speed_inv payload unit (read a w).
Proof.
  intros (Hw & Hu & Hs).
  destruct a; unfold read, speed, strength, direction.
  - destruct (_speed w) eqn:Es; simpl;
      [unfold speed_inv; rewrite ?Es; auto|].
    rewrite Hw. destruct (payload !! "speed") eqn:E; simpl;
      unfold speed_inv, converted; simpl; rewrite ?E, ?Es, ?Hu; auto.
  - destruct (_strength w) eqn:Es; simpl;
      [unfold speed_inv; rewrite ?Es; auto|].
    rewrite Hw. destruct (payload !! "speed") eqn:E; simpl;
      unfold speed_inv; simpl; rewrite ?E, ?Es; auto.
  - rewrite Hw. destruct (_direction w) eqn:Ed; simpl;
      [unfold speed_inv; auto|].
    destruct (payload !! "deg") eqn:E; simpl;
      unfold speed_inv; simpl; auto.
Qed.

Lemma speed_inv_reads payload unit l :
  forall w, speed_inv payload unit w -> speed_inv payload unit (reads l w).
Proof.
  induction l as [|a l IH]; intros w Hw; simpl; [assumption|].
  apply IH. apply speed_inv_read. assumption.
Qed.

Lemma speed_of_inv payload unit w raw :
  speed_inv payload unit w -> payload !! "speed" = Some raw ->
  fst (speed w) = Ok (Py.round (converted unit raw)).
Proof.
  intros (Hw & Hu & Hs) E. rewrite E in Hs. unfold speed.
  destruct Hs as [-> | ->]; simpl; [|reflexivity].
  rewrite Hw, E, Hu. reflexivity.
Qed.


Lemma no_speed_of_inv payload unit w :
  speed_inv payload unit w -> payload !! "speed" = None ->
  fst (speed w) = KeyError "speed" /\ fst (strength w) = KeyError "speed".
Proof.
  intros (Hw & _ & Hs) E. rewrite E in Hs. destruct Hs as [Hsp Hst]. split.
  - unfold speed. rewrite Hsp, Hw, E. reflexivity.
  - unfold strength. rewrite Hst, Hw, E. reflexivity.
Qed.

(** X20. A wind payload without "speed" makes both [speed] and [strength]
    raise [KeyError] at every read, caches nothing, and leaves [direction]
    working. *)
Theorem wind_without_speed payload unit l :
  payload !! "speed" = None ->
  let w := reads l (__init__ payload unit) in
  fst (speed w) = KeyError "speed" /\
  fst (strength w) = KeyError "speed" /\
  _speed w = None /\ _strength w = None /\
  fst (direction w) = fst (direction (__init__ payload unit)).
Proof.
  intros E w.
  assert (Hinv : speed_inv payload unit w)
    by apply speed_inv_reads, speed_inv_new.
  destruct (no_speed_of_inv payload unit w Hinv E) as [Hsp Hst].
  destruct Hinv as (Hw & _ & Hs). rewrite E in Hs. destruct Hs as [Hc Hc'].
  repeat split; try assumption.
  rewrite (direction_of_inv payload unit w)
    by apply wind_inv_reads, wind_inv_new.
  rewrite (direction_of_inv payload unit (__init__ payload unit))
    by apply wind_inv_new.
  reflexivity.
Qed.

Lemma Z_le_of_Q (v n : Z) : (inject_Z v < inject_Z (n + 1))%Q -> v <= n.
Proof. intros H. rewrite <- Zlt_Qlt in H. lia. Qed.

Lemma Z_ge_of_Q (v n : Z) : (inject_Z (n - 1) < inject_Z v)%Q -> n <= v.
Proof. intros H. rewrite <- Zlt_Qlt in H. lia. Qed.

(** X21. The spoken strength and the reported speed of one wind agree: in
    miles per hour a light wind reads at most 5, a medium wind 5 to 15 and
    a hard wind 15 or more; in any other unit (meters per second) the
    bounds are 2 and 7. *)
Theorem strength_bounds_speed payload unit l raw :
  payload !! "speed" = Some raw ->
  let w := reads l (__init__ payload unit) in
  exists (v : Z) (s : string),
    fst (speed w) = Ok v /\ fst (strength w) = Ok s /\
    (unit = Some MILES_PER_HOUR ->
       (s = "light" -> v <= 5) /\ (s = "medium" -> 5 <= v <= 15) /\
       (s = "hard" -> 15 <= v)) /\
    (unit <> Some MILES_PER_HOUR ->
       (s = "light" -> v <= 2) /\ (s = "medium" -> 2 <= v <= 7) /\
       (s = "hard" -> 7 <= v)).
Proof.
  intros E w.
  exists (Py.round (converted unit raw)), (classify raw).
  split; [eapply speed_of_inv; [apply speed_inv_reads, speed_inv_new | exact E]|].
  split; [eapply strength_of_inv; [apply wind_inv_reads, wind_inv_new | exact E]|].
  destruct (round_within_half (converted unit raw)) as [Hup Hdown].
  revert Hup Hdown. generalize (Py.round (converted unit raw)). intros v Hup Hdown.
  unfold converted in *.
  split; intros Hu.
  - rewrite decide_True in Hup, Hdown by exact Hu.
    split; [|split]; intros Hs.
    + apply classify_light in Hs. apply Z_le_of_Q.
      change (inject_Z (5 + 1)) with 6%Q. lra.
    + apply classify_medium in Hs. destruct Hs as [Hlo Hhi]. split.
      * apply Z_ge_of_Q. change (inject_Z (5 - 1)) with 4%Q. lra.
      * apply Z_le_of_Q. change (inject_Z (15 + 1)) with 16%Q. lra.
    + apply classify_hard in Hs. apply Z_ge_of_Q.
      change (inject_Z (15 - 1)) with 14%Q. lra.
  - rewrite decide_False in Hup, Hdown by exact Hu.
    split; [|split]; intros Hs.
    + apply classify_light in Hs. apply Z_le_of_Q.
      change (inject_Z (2 + 1)) with 3%Q. lra.
    + apply classify_medium in Hs. destruct Hs as [Hlo Hhi]. split.
      * apply Z_ge_of_Q. change (inject_Z (2 - 1)) with 1%Q. lra.
      * apply Z_le_of_Q. change (inject_Z (7 + 1)) with 8%Q. lra.
    + apply classify_hard in Hs. apply Z_ge_of_Q.
      change (inject_Z (7 - 1)) with 6%Q. lra.
Qed.

End WindSpeedFacts.


Lemma wind_without_speed_witness :
  fst (Wind.strength (Wind.reads [Wind.ReadSpeed; Wind.ReadDirection]
         (Wind.__init__ {[ "deg" := 90%Q ]} None)))
  = Config.KeyError "speed".
Proof.
  apply (wind_without_speed {[ "deg" := 90%Q ]} None
           [Wind.ReadSpeed; Wind.ReadDirection]).
  reflexivity.
Defined.

Lemma strength_bounds_speed_witness :
  exists (v : Z) (s : string),
    fst (Wind.speed (Wind.__init__ {[ "speed" := 2.2352%Q ]}
                       (Some Config.MILES_PER_HOUR))) = Config.Ok v /\
    fst (Wind.strength (Wind.__init__ {[ "speed" := 2.2352%Q ]}
                          (Some Config.MILES_PER_HOUR))) = Config.Ok s /\
    (s = "light" -> v <= 5).
Proof.
  assert (E : ({[ "speed" := 2.2352%Q ]} : gmap string Q) !! "speed"
              = Some 2.2352%Q) by (vm_compute; reflexivity).
  destruct (strength_bounds_speed {[ "speed" := 2.2352%Q ]}
              (Some Config.MILES_PER_HOUR) [] 2.2352%Q E)
    as (v & s & Hv & Hs & Hmph & _).
  exists v, s. split; [exact Hv|]. split; [exact Hs|].
  destruct (Hmph eq_refl) as (Hl & _). exact Hl.
Defined.

(** ** Temperatures of a report *)

Section TemperatureFacts.
Import Temperature.

Lemma str_int_nonempty n : str_int n <> "".
Proof.
  unfold str_int. destruct n as [|p|p]; simpl.
  - discriminate.
  - pose proof (Unsigned.to_uint_nonnil p) as Hn.
    destruct (Pos.to_uint p); simpl; try discriminate. congruence.
  - discriminate.
Qed.

Lemma int_str_str_int n : int_str (str_int n) = Some n.
Proof.
  unfold int_str, str_int. rewrite NilEmpty.isi.
  rewrite DecimalZ.of_to. reflexivity.
Qed.

Lemma get_temperature_source temperatures key :
  get_temperature temperatures key =
  match source_of temperatures key with
  | Some t => (str_int (Py.round t), [])
  | None => ("", ["No " +:+ key +:+ " temperature available"])
  end.
Proof.
  unfold get_temperature, source_of.
  destruct (temperatures !! key) as [t|] eqn:Ek.
  - rewrite bool_decide_eq_false_2 by discriminate. reflexivity.
  - rewrite bool_decide_eq_true_2 by reflexivity. cbn [andb].
    destruct (decide (key = "min")) as [Hmin | Hmin].
    + rewrite bool_decide_eq_true_2 by exact Hmin. reflexivity.
    + rewrite bool_decide_eq_false_2 by exact Hmin.
      destruct (decide (key = "max")) as [Hmax | Hmax].
      * rewrite bool_decide_eq_true_2 by exact Hmax. reflexivity.
      * rewrite bool_decide_eq_false_2 by exact Hmax. reflexivity.
Qed.

(** X22. [get_temperature] reads the value under the key, or for "min" and
    "max" the value under "temp_min" and "temp_max" when the key itself is
    missing. With a value the text is the decimal of the rounded value: it
    reads back as that integer, is never empty, and nothing is logged.
    Without a value the text is empty and one warning is logged. *)
Theorem get_temperature_reads_back temperatures key :
  let r := get_temperature temperatures key in
  (forall t, temperatures !! key = Some t ->
     int_str (fst r) = Some (Py.round t)) /\
  (temperatures !! key = None -> key = "min" ->
   forall t, temperatures !! "temp_min" = Some t ->
     int_str (fst r) = Some (Py.round t)) /\
  (temperatures !! key = None -> key = "max" ->
   forall t, temperatures !! "temp_max" = Some t ->
     int_str (fst r) = Some (Py.round t)) /\
  (fst r = "" <-> source_of temperatures key = None) /\
  (snd r = [] <-> source_of temperatures key <> None).
Proof.
  intros r. unfold r. rewrite get_temperature_source.
  split; [|split; [|split; [|split]]].
  - intros t Ht. unfold source_of. rewrite Ht. apply int_str_str_int.
  - intros Hk -> t Ht. unfold source_of. rewrite Hk.
    rewrite decide_True by reflexivity. rewrite Ht. apply int_str_str_int.
  - intros Hk -> t Ht. unfold source_of. rewrite Hk.
    rewrite decide_False by discriminate.
    rewrite decide_True by reflexivity. rewrite Ht. apply int_str_str_int.
  - destruct (source_of temperatures key); cbn [fst]; split;
      intros H; try reflexivity; try discriminate.
    exfalso. exact (str_int_nonempty _ H).
  - destruct (source_of temperatures key); cbn [snd]; split;
      intros H; try reflexivity; try discriminate; congruence.
Qed.

End TemperatureFacts.

Lemma get_temperature_reads_back_witness :
  Temperature.int_str
    (fst (Temperature.get_temperature {[ "temp_min" := (-3.5)%Q ]} "min"))
  = Some (-4).
Proof.
  destruct (get_temperature_reads_back {[ "temp_min" := (-3.5)%Q ]} "min")
    as (_ & Hmin & _).
  apply (Hmin eq_refl eq_refl (-3.5)%Q). vm_compute. reflexivity.
Defined.

(** ** The forecast for the display *)

Section DisplayFacts.
Import Display.

Lemma CODES_range icon code : CODES !! icon = Some code -> 0 <= code <= 7.
Proof.
  intros H. apply elem_of_list_to_map_2 in H.
  repeat (apply elem_of_cons in H as [H | H]; [inversion H; lia|]).
  apply not_elem_of_nil in H. destruct H.
Qed.

Lemma entry_ok unit w d :
  entry unit w = inr d ->
  0 <= weathercode d <= 7 /\ date d ∈ weekdays /\
  CODES !! get_weather_icon_name w = Some (weathercode d) /\
  (exists tmax, get_temperature w unit !! "max" = Some tmax /\
                max d = Py.round tmax) /\
  (exists tmin, get_temperature w unit !! "min" = Some tmin /\
                min d = Py.round tmin).
Proof.
  unfold entry.
  destruct (weekdays !! weekday w) as [day|] eqn:Ed; [|discriminate].
  destruct (CODES !! get_weather_icon_name w) as [code|] eqn:Ec; [|discriminate].
  destruct (get_temperature w unit !! "max") as [tmax|]; [|discriminate].
  destruct (get_temperature w unit !! "min") as [tmin|]; [|discriminate].
  intros H. inversion H; subst d. cbn.
  split; [eapply CODES_range; exact Ec|].
  split; [eapply list_elem_of_lookup_2; exact Ed|].
  split; [reflexivity|]. split; eauto.
Qed.

Lemma entries_ok unit l : forall ds,
  entries unit l = inr ds ->
  length ds = length l /\
  forall (i : nat) d, ds !! i = Some d ->
    exists w, l !! i = Some w /\ entry unit w = inr d.
Proof.
  induction l as [|w rest IH]; intros ds H; simpl in H.
  - inversion H; subst. split; [reflexivity|].
    intros i d Hd. rewrite lookup_nil in Hd. discriminate.
  - destruct (entry unit w) as [e | d0] eqn:Ee; [discriminate|].
    destruct (entries unit rest) as [e | ds0]; [discriminate|].
    inversion H; subst ds. destruct (IH ds0 eq_refl) as [Hlen Hall].
    split; [simpl; lia|].
    intros [|i] d Hd; simpl in Hd.
    + inversion Hd; subst. exists w. auto.
    + apply Hall. exact Hd.
Qed.

(** X23. The display forecast leaves out the first weather (today) and
    holds the next four at most, whatever [days] is: entry [i] is made from
    weather [i + 1], its code is one of the display codes 0 to 7, its day one
    of the seven short weekday names and its temperatures the rounded "max"
    and "min". *)
Theorem coming_days_forecast_shape forecast unit days result :
  get_coming_days_forecast forecast unit days = inr result ->
  length result = Nat.min 4 (length forecast - 1) /\
  (forall days', get_coming_days_forecast forecast unit days' = inr result) /\
  (forall today,
     get_coming_days_forecast (today :: tail forecast) unit days
     = get_coming_days_forecast forecast unit days \/ forecast = []) /\
  forall (i : nat) d, result !! i = Some d ->
    exists w, forecast !! S i = Some w /\ entry unit w = inr d /\
              0 <= weathercode d <= 7 /\ date d ∈ weekdays.
Proof.
  unfold get_coming_days_forecast. intros H.
  destruct (entries_ok unit _ _ H) as [Hlen Hall].
  split; [rewrite Hlen, length_take, length_drop; lia|].
  split; [intros days'; exact H|].
  split.
  - intros today. destruct forecast; [right; reflexivity | left; reflexivity].
  - intros i d Hd. destruct (Hall i d Hd) as (w & Hw & He).
    apply lookup_take_Some in Hw as [Hw _]. rewrite lookup_drop in Hw.
    exists w. split; [exact Hw|]. split; [exact He|].
    destruct (entry_ok unit w d He) as (Hc & Hday & _). auto.
Qed.

End DisplayFacts.

Lemma coming_days_forecast_shape_witness :
  let w := {| Display.get_weather_icon_name := "10d";
              Display.get_temperature :=
                fun _ => {[ "max" := 20.6%Q; "min" := 11.2%Q ]};
              Display.weekday := 2 |} in
  exists result,
    Display.get_coming_days_forecast [w; w; w; w; w; w; w] "celsius" (Some 2)
    = inr result /\ length result = 4%nat.
Proof.
  intros w.
  destruct (Display.get_coming_days_forecast [w; w; w; w; w; w; w] "celsius"
              (Some 2)) as [e | result] eqn:E.
  - vm_compute in E. discriminate.
  - exists result. split; [reflexivity|].
    destruct (coming_days_forecast_shape [w; w; w; w; w; w; w] "celsius"
                (Some 2) result E) as (Hlen & _).
    exact Hlen.
Defined.

(** ** Condition handlers *)

Section ConditionsFacts.
Import Config Wind Report Skill Conditions.
Variable templates : gset string.
Variable translate : string -> string.
Variable nice_date : Py.datetime -> Py.datetime -> string.

(** X24. "Is it windy": for a report whose wind has a speed, the dialog
    spoken is the strength by the fixed thresholds in m/s (2.2352 and
    6.7056), after "forecast." when the report has a day and "local." when
    the message has no location; the report is handed over with the
    translated name of the configured speed unit as its wind unit. The
    limit tables in miles per hour and m/s and the configured unit have no
    influence on the dialog chosen. Without a speed the handler ends in a
    [KeyError] and says nothing. *)
Theorem isit_windy_dialog c message report day payload unit l :
  let w := reads l (Wind.__init__ payload unit) in
  (forall raw, payload !! "speed" = Some raw ->
     handle_isit_windy translate c message report day w
     = Ok [Speak ((if bool_decide (day <> None) then "forecast." else "") +:+
                  (if bool_decide (data message !! "Location" = None)
                   then "local." else "") +:+
                  classify raw)
                 (Some (<["wind_unit" :=
                            translate
                              (if decide (fst (Config.speed_unit c)
                                          = MILES_PER_HOUR)
                               then MILES_PER_HOUR else METERS_PER_SECOND)]>
                          report))]) /\
  (payload !! "speed" = None ->
     handle_isit_windy translate c message report day w = KeyError "speed").
Proof.
  intros w. split.
  - intros raw E. unfold handle_isit_windy.
    rewrite (strength_of_inv payload unit w raw)
      by (try exact E; apply wind_inv_reads, wind_inv_new).
    destruct (decide (fst (Config.speed_unit c) = MILES_PER_HOUR));
      destruct (bool_decide (day <> None));
      destruct (bool_decide (data message !! "Location" = None));
      reflexivity.
  - intros E. unfold handle_isit_windy.
    destruct (no_speed_of_inv payload unit w) as [_ Hs];
      [apply speed_inv_reads, speed_inv_new | exact E |].
    destruct (decide (fst (Config.speed_unit c) = MILES_PER_HOUR));
      rewrite Hs; reflexivity.
Qed.

(** X25. [__report_condition] speaks "report.condition", with ".future"
    and a "day" entry exactly when a day other than today is asked for, then
    with ".at.location" and a "location" entry exactly when a non-empty
    location is given; "condition" and "value" are always there. *)
Theorem report_condition_shape now today name value when location :
  exists (future at_location : bool) (spoken : gmap string string),
    __report_condition translate nice_date now today name value when location
    = [Speak ("report.condition" +:+
              (if future then ".future" else "") +:+
              (if at_location then ".at.location" else ""))
             (Some spoken)] /\
    (future = true <->
       exists w, when = Some w /\ Py.date w <> Py.date today) /\
    (at_location = true <-> exists l, location = Some l /\ l <> "") /\
    spoken !! "condition" = Some name /\
    spoken !! "value" = Some value /\
    (is_Some (spoken !! "day") <-> future = true) /\
    (forall w, when = Some w -> future = true ->
       spoken !! "day" = Some (__to_day translate nice_date now w true)) /\
    spoken !! "location" = (if at_location then location else None).
Proof.
  unfold __report_condition.
  destruct when as [w|];
    [destruct (bool_decide (Py.date w <> Py.date today)) eqn:Ew|];
    (destruct location as [l0|];
     [destruct (bool_decide (l0 <> "")) eqn:El|]);
    repeat match goal with
    | H : bool_decide _ = true |- _ => apply bool_decide_eq_true in H
    | H : bool_decide _ = false |- _ => apply bool_decide_eq_false in H
    end;
    match goal with
    | |- exists _ _ _, [Speak ?d (Some ?m)] = _ /\ _ =>
        first
          [ exists true, true, m; split; [reflexivity|]
          | exists true, false, m; split; [reflexivity|]
          | exists false, true, m; split; [reflexivity|]
          | exists false, false, m; split; [reflexivity|] ]
    end;
    (split; [split; [try discriminate; eauto
                    | intros (w' & Hw' & Hd); try discriminate;
                      try (inversion Hw'; subst; tauto);
                      reflexivity]|]);
    (split; [split; [try discriminate; eauto
                    | intros (l' & Hl' & Hd); try discriminate;
                      try (inversion Hl'; subst; tauto);
                      reflexivity]|]);
    (split; [reflexivity|]); (split; [reflexivity|]);
    (split; [split; [intros [x Hx]; try discriminate; reflexivity
                    | intros Hf; try discriminate; eexists; reflexivity]|]);
    (split; [intros w' Hw' Hf; try discriminate;
             inversion Hw'; subst; reflexivity|]);
    reflexivity.
Qed.

End ConditionsFacts.

Section PrecipitationFacts.
Import Config Wind Report Skill Conditions.
Variable templates : gset string.
Variable translate : string -> string.
Variable nice_date : Py.datetime -> Py.datetime -> string.

Lemma next_precipitation_passes now today when report pre : forall rest,
  Forall (passed_over today when) pre ->
  next_precipitation templates translate nice_date now today when report
    (pre ++ rest)
  = next_precipitation templates translate nice_date now today when report rest.
Proof.
  induction pre as [|weather pre IH]; intros rest Hpre; [reflexivity|].
  inversion Hpre as [|? ? Hw Hrest]; subst.
  cbn [app next_precipitation].
  destruct Hw as [(w & -> & Hne & Hd) | (Hrain & Hsnow)].
  - rewrite bool_decide_eq_true_2 by exact Hne.
    rewrite bool_decide_eq_true_2 by exact Hd.
    cbn [andb]. apply IH, Hrest.
  - rewrite Hrain, Hsnow.
    match goal with
    | |- (if ?b then _ else _) = _ => destruct b
    end; apply IH, Hrest.
Qed.

Lemma looked_at_not_skipped today when weather :
  looked_at today when weather ->
  match when with
  | Some w => bool_decide (w <> today) &&
              bool_decide (Py.date (reference_time weather) <> Py.date w)
  | None => false
  end = false.
Proof.
  intros Hl. destruct when as [w|]; [|reflexivity].
  destruct (decide (w = today)) as [->|Hne].
  - rewrite bool_decide_eq_false_2 by tauto. reflexivity.
  - rewrite (bool_decide_eq_false_2 (_ <> Py.date w)); [apply andb_false_r|].
    intros H. apply H. apply (Hl w eq_refl Hne).
Qed.

(** X26. "When will it rain": the first daily weather that is looked at
    (every one, or only those of the requested day when a day other than
    today is asked for) and has rain or snow above zero is the one
    announced, as rain when it has rain and as snow otherwise, with the day
    of that weather; the modifier is "light" below 10, "heavy" above 20 and
    empty from 10 to 20. *)
Theorem next_precipitation_first_wet_day now today when report pre weather post :
  Forall (passed_over today when) pre ->
  looked_at today when weather ->
  let run := next_precipitation templates translate nice_date now today when
               report (pre ++ weather :: post) in
  let day := __to_day translate nice_date now (reference_time weather) true in
  (forall a, amount_of (get_rain weather) = Ok (Some a) ->
     exists spoken,
       run = Ok [Speak "precipitation expected" (Some spoken)] /\
       spoken !! "precip" = Some "rain" /\ spoken !! "day" = Some day /\
       spoken !! "modifier" = Some (modifier templates translate a)) /\
  (forall a, amount_of (get_rain weather) = Ok None ->
     amount_of (get_snow weather) = Ok (Some a) ->
     exists spoken,
       run = Ok [Speak "precipitation expected" (Some spoken)] /\
       spoken !! "precip" = Some "snow" /\ spoken !! "day" = Some day /\
       spoken !! "modifier" = Some (modifier templates translate a)) /\
  (forall a : Q,
     ((a < 10)%Q -> modifier templates translate a
                    = __translate templates translate "light" false) /\
     ((10 <= a)%Q -> (a <= 20)%Q -> modifier templates translate a = "") /\
     ((20 < a)%Q -> modifier templates translate a
                    = __translate templates translate "heavy" false)).
Proof.
  intros Hpre Hlook run day. unfold run.
  rewrite (next_precipitation_passes now today when report pre _ Hpre).
  cbn [next_precipitation]. rewrite (looked_at_not_skipped _ _ _ Hlook).
  split; [|split].
  - intros a Ha. rewrite Ha. eexists. split; [reflexivity|].
    unfold expected. repeat split.
  - intros a Hr Hs. rewrite Hr, Hs. eexists. split; [reflexivity|].
    unfold expected. repeat split.
  - intros a. unfold modifier, Qlt_bool.
    destruct (Qle_bool 10 a) eqn:E10; destruct (Qle_bool a 20) eqn:E20;
      cbn [negb]; q_props; repeat split; intros;
      try reflexivity; exfalso; lra.
Qed.

(** X27. When every daily weather is passed over (filtered out by the
    requested day, or with neither rain nor snow above zero) the handler
    says that no precipitation is expected. *)
Theorem next_precipitation_none now today when report weathers :
  Forall (passed_over today when) weathers ->
  next_precipitation templates translate nice_date now today when report weathers
  = Ok [Speak "no precipitation expected" (Some report)].
Proof.
  intros H.
  rewrite <- (app_nil_r weathers).
  rewrite (next_precipitation_passes now today when report weathers [] H).
  reflexivity.
Qed.

(** X28. A rain or snow dictionary that has entries but no "all" entry ends
    the handler in a [KeyError], unless an earlier day was announced. *)
Theorem next_precipitation_key_error now today when report pre weather post :
  Forall (passed_over today when) pre ->
  looked_at today when weather ->
  get_rain weather <> ∅ -> get_rain weather !! "all" = None ->
  next_precipitation templates translate nice_date now today when report
    (pre ++ weather :: post) = KeyError "all".
Proof.
  intros Hpre Hlook Hne Hall.
  rewrite (next_precipitation_passes now today when report pre _ Hpre).
  cbn [next_precipitation]. rewrite (looked_at_not_skipped _ _ _ Hlook).
  unfold amount_of. rewrite decide_False by exact Hne. rewrite Hall.
  reflexivity.
Qed.

End PrecipitationFacts.

Lemma isit_windy_dialog_witness :
  let c := Config.__init__ {[ "system_unit" := "imperial" ]} ∅
             "Lawrence" "Kansas" "United States" in
  Conditions.handle_isit_windy (fun s => s) c {| Skill.data := ∅ |} ∅ None
    (Wind.__init__ {[ "speed" := 4.47%Q ]} (Some Config.MILES_PER_HOUR))
  = Config.Ok [Skill.Speak "local.medium"
                 (Some {[ "wind_unit" := Config.MILES_PER_HOUR ]})].
Proof.
  intros c.
  destruct (isit_windy_dialog (fun s => s) c {| Skill.data := ∅ |} ∅ None
              {[ "speed" := 4.47%Q ]} (Some Config.MILES_PER_HOUR) [])
    as (H & _).
  assert (E : ({[ "speed" := 4.47%Q ]} : gmap string Q) !! "speed"
              = Some 4.47%Q) by (vm_compute; reflexivity).
  exact (H 4.47%Q E).
Defined.

Lemma report_condition_shape_witness :
  let nice := fun _ _ : Py.datetime => "friday, june the eighth" in
  let now := {| Py.date := 736850; Py.hour := 8 |} in
  let today := {| Py.date := 736850; Py.hour := 0 |} in
  let when := {| Py.date := 736853; Py.hour := 0 |} in
  exists spoken,
    Conditions.__report_condition (fun _ => "on") nice now today
      "humidity" "40 percent" (Some when) (Some "Paris")
    = [Skill.Speak "report.condition.future.at.location" (Some spoken)] /\
    spoken !! "day" = Some "on friday".
Proof.
  intros nice now today when.
  destruct (report_condition_shape (fun _ => "on") nice now today
              "humidity" "40 percent" (Some when) (Some "Paris"))
    as (future & at_location & spoken & Heq & Hf & Ha & _ & _ & _ & Hday & _).
  assert (Ft : future = true).
  { apply Hf. exists when. split; [reflexivity|]. simpl. lia. }
  assert (At : at_location = true).
  { apply Ha. exists "Paris". split; [reflexivity | discriminate]. }
  subst future at_location. exists spoken. split; [exact Heq|].
  exact (Hday when eq_refl eq_refl).
Defined.

Lemma next_precipitation_first_wet_day_witness :
  let nice := fun _ _ : Py.datetime => "friday, june the eighth" in
  let now := {| Py.date := 736850; Py.hour := 8 |} in
  let today := {| Py.date := 736850; Py.hour := 0 |} in
  let dry := {| Conditions.reference_time := {| Py.date := 736851; Py.hour := 12 |};
                Conditions.get_rain := ∅; Conditions.get_snow := ∅ |} in
  let wet := {| Conditions.reference_time := {| Py.date := 736853; Py.hour := 12 |};
                Conditions.get_rain := {[ "all" := 12.5%Q ]};
                Conditions.get_snow := ∅ |} in
  exists spoken,
    Conditions.next_precipitation ∅ (fun _ => "on") nice now today None ∅
      [dry; wet; dry]
    = Config.Ok [Skill.Speak "precipitation expected" (Some spoken)] /\
    spoken !! "precip" = Some "rain" /\
    spoken !! "modifier" = Some "".
Proof.
  intros nice now today dry wet.
  destruct (next_precipitation_first_wet_day ∅ (fun _ => "on") nice now today
              None ∅ [dry] wet [dry]) as (Hrain & _ & Hmod).
  - constructor; [|constructor]. right. split; reflexivity.
  - intros w Hw. discriminate.
  - destruct (Hrain 12.5%Q) as (spoken & Hrun & Hp & _ & Hm).
    + vm_compute. reflexivity.
    + exists spoken. split; [exact Hrun|]. split; [exact Hp|].
      rewrite Hm. destruct (Hmod 12.5%Q) as (_ & Hmid & _).
      rewrite Hmid; [reflexivity | |]; unfold Qle; simpl; lia.
Defined.

Lemma next_precipitation_none_witness :
  let nice := fun _ _ : Py.datetime => "friday, june the eighth" in
  let now := {| Py.date := 736850; Py.hour := 8 |} in
  let today := {| Py.date := 736850; Py.hour := 0 |} in
  let dry := {| Conditions.reference_time := {| Py.date := 736851; Py.hour := 12 |};
                Conditions.get_rain := {[ "all" := 0%Q ]};
                Conditions.get_snow := ∅ |} in
  Conditions.next_precipitation ∅ (fun _ => "on") nice now today None ∅
    [dry; dry]
  = Config.Ok [Skill.Speak "no precipitation expected" (Some ∅)].
Proof.
  intros nice now today dry.
  apply (next_precipitation_none ∅ (fun _ => "on") nice now today None ∅).
  repeat constructor; right; split; vm_compute; reflexivity.
Defined.

Lemma next_precipitation_key_error_witness :
  let nice := fun _ _ : Py.datetime => "friday, june the eighth" in
  let now := {| Py.date := 736850; Py.hour := 8 |} in
  let today := {| Py.date := 736850; Py.hour := 0 |} in
  let odd := {| Conditions.reference_time := {| Py.date := 736851; Py.hour := 12 |};
                Conditions.get_rain := {[ "3h" := 1.5%Q ]};
                Conditions.get_snow := ∅ |} in
  Conditions.next_precipitation ∅ (fun _ => "on") nice now today None ∅ [odd]
  = Config.KeyError "all".
Proof.
  intros nice now today odd.
  apply (next_precipitation_key_error ∅ (fun _ => "on") nice now today None ∅
           [] odd []).
  - constructor.
  - intros w Hw. discriminate.
  - intros H. apply (f_equal (fun m : gmap string Q => m !! "3h")) in H.
    vm_compute in H. discriminate.
  - vm_compute. reflexivity.
Defined.
